(** * Olympic medals dashboard: the data pipeline of [app.py]

    A shallow embedding of the start-up script (read the CSV, check the
    columns, rename one country, keep the years 1992-2020, add
    [Total_Medals], build the drop-down lists) and of the four chart
    callbacks, followed by the properties of the specification.

    Modelling conventions.
    - A data frame is the list of its rows in index order; the rows of the
      table are records with the columns the script uses.
    - Medal counts and years are integers ([Z]); text cells are strings.
      The arithmetic is that of mathematical integers: overflow of the
      64-bit columns of pandas is outside the model, and so are missing
      cells (with a missing [Country_Name] the script can die at
      [sorted(...)] with an uncaught [TypeError]).
    - A frame knows the dtype of its columns: a CSV without lines is read
      as a frame whose columns all have dtype object, which [nlargest]
      refuses.
    - [read_csv], [px.pie], [px.bar] and the like are library calls: the
      first is represented by its outcome, the others by the figure they
      are asked to draw.
    - Module-level names ([df], [all_countries], [year_options], ...) are
      the fields of [Globals]; callbacks run in a small state-and-exception
      monad over [Globals]. *)

From Stdlib Require Import List ZArith Lia Bool String Ascii.
From Stdlib Require Import Permutation Sorted DecimalString.
From Stdlib Require Import RelationClasses OrdersEx.
Import ListNotations.

Set Implicit Arguments.

Local Open Scope string_scope.
Local Open Scope Z_scope.

(* ================================================================== *)
(** ** Strings *)

(** [str.replace(old, new)] for one-character [old] and [new]. *)
Fixpoint replace_char (old new : ascii) (s : string) : string :=
  match s with
  | EmptyString => EmptyString
  | String c rest =>
      String (if Ascii.eqb c old then new else c) (replace_char old new rest)
  end.

(** [str(n)] for an integer. *)
Definition str_of_int (n : Z) : string :=
  NilZero.string_of_int (Z.to_int n).

(** Python compares strings by code point; on UTF-8 bytes that is the
    byte-wise lexicographic order of [String.compare]. *)
Definition str_le (a b : string) : bool := String.leb a b.

Definition str_in (x : string) (l : list string) : bool :=
  existsb (String.eqb x) l.

(* ================================================================== *)
(** ** Generic frame operations *)

Section ListOps.
Variable A : Type.

(** Insertion of [x] before the first element it is [le] to.  Folding it
    from the right gives a stable sort. *)
Fixpoint insert_by (le : A -> A -> bool) (x : A) (l : list A) : list A :=
  match l with
  | [] => [x]
  | y :: l' => if le x y then x :: y :: l' else y :: insert_by le x l'
  end.

Definition sort_by (le : A -> A -> bool) (l : list A) : list A :=
  fold_right (insert_by le) [] l.

(** Membership with a boolean equality. *)
Definition mem_by (eqb : A -> A -> bool) (x : A) (l : list A) : bool :=
  existsb (eqb x) l.

(** [Series.unique()] / [drop_duplicates()]: first occurrences, in order
    of appearance. *)
Fixpoint unique_from (eqb : A -> A -> bool) (seen l : list A) : list A :=
  match l with
  | [] => []
  | x :: l' =>
      if mem_by eqb x seen then unique_from eqb seen l'
      else x :: unique_from eqb (x :: seen) l'
  end.

Definition unique (eqb : A -> A -> bool) (l : list A) : list A :=
  unique_from eqb [] l.
End ListOps.

Definition sum_Z (l : list Z) : Z := fold_right Z.add 0 l.

(* ================================================================== *)
(** ** Data model *)

(** One line of the CSV, restricted to the eight expected columns. *)
Record MedalRecord := mkMedalRecord {
  rec_Year : Z;
  rec_Host_country : string;
  rec_Host_city : string;
  rec_Country_Name : string;
  rec_Country_Code : string;
  rec_Gold : Z;
  rec_Silver : Z;
  rec_Bronze : Z
}.

(** One row of [df], the working table: the eight columns and the derived
    [Total_Medals]. *)
Record Row := mkRow {
  Year : Z;
  Host_country : string;
  Host_city : string;
  Country_Name : string;
  Country_Code : string;
  Gold : Z;
  Silver : Z;
  Bronze : Z;
  Total_Medals : Z
}.

(** The values of the medal drop-down ([medal_types]). *)
Inductive Metric := MGold | MSilver | MBronze | MTotal_Medals.

Definition metric_name (m : Metric) : string :=
  match m with
  | MGold => "Gold"
  | MSilver => "Silver"
  | MBronze => "Bronze"
  | MTotal_Medals => "Total_Medals"
  end.

(** [df[medal_col]] for a medal column. *)
Definition metric_col (m : Metric) : Row -> Z :=
  match m with
  | MGold => Gold
  | MSilver => Silver
  | MBronze => Bronze
  | MTotal_Medals => Total_Medals
  end.

(** The values of the year drop-down: ['All'] or a year. *)
Inductive YearValue := YAll | YInt (y : Z).

Definition YearValue_eqb (a b : YearValue) : bool :=
  match a, b with
  | YAll, YAll => true
  | YInt x, YInt y => x =? y
  | _, _ => false
  end.

Record YearOption := mkYearOption {
  label : string;
  value : YearValue
}.

(** A frame of the script.  [read_csv] gives object dtype to every
    column of a CSV that has a header and no line; when there are lines
    the year and medal columns are int64, and they stay so when a filter
    leaves no row. *)
Inductive DataFrame :=
| HeaderOnly
| Lines (rows : list Row).

Definition frame_rows (frame : DataFrame) : list Row :=
  match frame with
  | HeaderOnly => []
  | Lines rows => rows
  end.

Inductive Dtype := int64 | object.

(** The dtype of the medal columns, [Total_Medals] included. *)
Definition medal_dtype (frame : DataFrame) : Dtype :=
  match frame with
  | HeaderOnly => object
  | Lines _ => int64
  end.

(** The module-level names the callbacks read; [df_frame] is the
    script's [df]. *)
Record Globals := mkGlobals {
  df_frame : DataFrame;
  all_countries : list string;
  medal_types : list string;
  year_options : list YearOption
}.

(** The rows of [df]. *)
Definition df (g : Globals) : list Row := frame_rows (df_frame g).

(* ================================================================== *)
(** ** Start-up: loading and preparing the table *)

(** What [pd.read_csv] did: it raised, or it returned a frame with the
    given header.  [records] gives the cells of the expected columns, all
    of them present and of the type of their column; a column absent
    from the header is never read, since the script stops first. *)
Inductive PyError :=
| FileNotFoundError (msg : string)
| OtherException (msg : string).

Inductive ReadCsv :=
| ReadRaises (e : PyError)
| ReadOk (columns : list string) (records : list MedalRecord).

(** The script either calls [exit()] after printing some lines, or goes
    on to serve the layout with its globals in place. *)
Inductive Startup :=
| Exited (stdout : list string)
| Running (g : Globals).

Definition expected_cols_from_user : list string :=
  ["Year"; "Host_country"; "Host_city"; "Country_Name"; "Country_Code";
   "Gold"; "Silver"; "Bronze"]%string.

Definition missing_cols (columns : list string) : list string :=
  filter (fun col => negb (str_in col columns)) expected_cols_from_user.

(** [Series.replace('United States', 'United States of America')]: whole
    cells equal to the first string are replaced. *)
Definition replace_value (old new cell : string) : string :=
  if String.eqb cell old then new else cell.

Definition correct_country_name (r : MedalRecord) : MedalRecord :=
  {| rec_Year := rec_Year r;
     rec_Host_country := rec_Host_country r;
     rec_Host_city := rec_Host_city r;
     rec_Country_Name :=
       replace_value "United States" "United States of America"
                     (rec_Country_Name r);
     rec_Country_Code := rec_Country_Code r;
     rec_Gold := rec_Gold r;
     rec_Silver := rec_Silver r;
     rec_Bronze := rec_Bronze r |}.

Definition in_years (r : MedalRecord) : bool :=
  (1992 <=? rec_Year r) && (rec_Year r <=? 2020).

(** [df['Total_Medals'] = df['Gold'] + df['Silver'] + df['Bronze']]. *)
Definition add_Total_Medals (r : MedalRecord) : Row :=
  {| Year := rec_Year r;
     Host_country := rec_Host_country r;
     Host_city := rec_Host_city r;
     Country_Name := rec_Country_Name r;
     Country_Code := rec_Country_Code r;
     Gold := rec_Gold r;
     Silver := rec_Silver r;
     Bronze := rec_Bronze r;
     Total_Medals := rec_Gold r + rec_Silver r + rec_Bronze r |}.

Definition make_df (records : list MedalRecord) : list Row :=
  let df_full := map correct_country_name records in
  let df := filter in_years df_full in
  map add_Total_Medals df.

(** [sorted(df['Country_Name'].unique())]. *)
Definition make_all_countries (df : list Row) : list string :=
  sort_by str_le (unique String.eqb (map Country_Name df)).

Definition host_eqb (a b : Z * string * string) : bool :=
  let '(y1, c1, k1) := a in
  let '(y2, c2, k2) := b in
  (y1 =? y2) && String.eqb c1 c2 && String.eqb k1 k2.

(** [df[['Year','Host_city','Host_country']].drop_duplicates()
    .sort_values('Year')].  [sort_values] uses numpy's quicksort, which
    does not fix the order of rows with the same year; the model keeps
    them in their order, and no property below depends on it. *)
Definition year_host_info (df : list Row) : list (Z * string * string) :=
  sort_by (fun a b => fst (fst a) <=? fst (fst b))
          (unique host_eqb
                  (map (fun r => (Year r, Host_city r, Host_country r)) df)).

Definition year_option_of (row : Z * string * string) : YearOption :=
  let '(y, city, country) := row in
  {| label := (str_of_int y ++ " - " ++ city ++ ", " ++ country)%string;
     value := YInt y |}.

Definition make_year_options (df : list Row) : list YearOption :=
  {| label := "All Years (1992-2020)"; value := YAll |}
    :: map year_option_of (year_host_info df).

(** [df] as a frame: the rows of [make_df], with the dtypes [read_csv]
    inferred. *)
Definition make_frame (records : list MedalRecord) : DataFrame :=
  match records with
  | [] => HeaderOnly
  | _ :: _ => Lines (make_df records)
  end.

Definition not_found_message : string :=
  "Error: 'Summer_olympic_Medals.csv' not found. Make sure the file is in the same directory as the script.".

Definition startup (src : ReadCsv) : Startup :=
  match src with
  | ReadRaises (FileNotFoundError _) => Exited [not_found_message]
  | ReadRaises (OtherException e) =>
      Exited [("Error loading CSV: " ++ e)%string]
  | ReadOk columns records =>
      let missing := missing_cols columns in
      match missing with
      | _ :: _ =>
          Exited
            [("Error: The CSV file is missing the following expected columns: "
                ++ String.concat ", " missing)%string;
             ("Available columns are: " ++ String.concat ", " columns)%string]
      | [] =>
          let df := make_df records in
          Running {| df_frame := make_frame records;
                     all_countries := make_all_countries df;
                     medal_types :=
                       ["Gold"; "Silver"; "Bronze"; "Total_Medals"]%string;
                     year_options := make_year_options df |}
      end
  end.

(* ================================================================== *)
(** ** The callback monad *)

(** Exceptions a callback can raise. *)
Inductive PyExn :=
| KeyError (msg : string)
| TypeError (msg : string).

Inductive Outcome (A : Type) :=
| Return (a : A)
| Raise (e : PyExn).

Arguments Return {A} a.
Arguments Raise {A} e.

(** A callback body: it starts from the globals of the process and ends
    with a figure or an exception, and with the globals it leaves. *)
Definition Callback (A : Type) : Type := Globals -> Outcome A * Globals.

Definition ret {A} (a : A) : Callback A := fun g => (Return a, g).

Definition raise {A} (e : PyExn) : Callback A := fun g => (Raise e, g).

Definition bind {A B} (c : Callback A) (k : A -> Callback B) : Callback B :=
  fun g =>
    match c g with
    | (Return a, g') => k a g'
    | (Raise e, g') => (Raise e, g')
    end.

(** Reading a module-level name. *)
Definition global {A} (field : Globals -> A) : Callback A :=
  fun g => (Return (field g), g).

Notation "x <- c ;; k" := (bind c (fun x => k))
  (at level 61, c at next level, right associativity).

(* ================================================================== *)
(** ** Figures *)

Inductive ChartKind := Pie | Choropleth | Area | Bar.

(** What a [plotly.express] call is asked to draw: the frame it is given,
    the title, the annotations and the fixed colours. *)
Record Figure (A : Type) := mkFigure {
  kind : ChartKind;
  title : string;
  data : list A;
  annotations : list string;
  color_discrete_map : list (string * string);
  marker_color : option string
}.

(* ================================================================== *)
(** ** Aggregations *)

Section GroupBy.
Variable K : Type.
Variable key_eqb : K -> K -> bool.
Variable key_le : K -> K -> bool.

(** [df.groupby(key)[col].sum()]: one entry per distinct key, in sorted
    key order, with the sum of the column over the rows of the group. *)
Definition groupby_sum (key : Row -> K) (col : Row -> Z) (df : list Row)
  : list (K * Z) :=
  map (fun k =>
         (k, sum_Z (map col (filter (fun r => key_eqb (key r) k) df))))
      (sort_by key_le (unique key_eqb (map key df))).

(** [nlargest(n, col)] with the default [keep='first']: the [n] entries
    with the largest values, largest first, equal values in their
    original order. *)
Definition nlargest (n : nat) (s : list (K * Z)) : list (K * Z) :=
  firstn n (sort_by (fun a b => snd b <=? snd a) s).
End GroupBy.

(** [nlargest] on a frame: pandas first checks the dtype of the column
    and raises [TypeError] when it is object. *)
Definition nlargest_checked K (frame : DataFrame) (message : string)
           (n : nat) (s : list (K * Z)) : Callback (list (K * Z)) :=
  match medal_dtype frame with
  | object => raise (TypeError message)
  | int64 => ret (nlargest n s)
  end.

(** The texts of the two errors: [Series.nlargest] and
    [DataFrame.nlargest(n, column)]. *)
Definition series_nlargest_error : string :=
  "Cannot use method 'nlargest' with dtype object".

Definition frame_nlargest_error (column : string) : string :=
  ("Column '" ++ column
     ++ "' has dtype object, cannot use method 'nlargest' with this dtype")%string.

Definition key2_eqb (a b : string * Z) : bool :=
  String.eqb (fst a) (fst b) && (snd a =? snd b).

(** Order of the [(Country_Name, Year)] group keys. *)
Definition key2_le (a b : string * Z) : bool :=
  if String.eqb (fst a) (fst b) then snd a <=? snd b
  else str_le (fst a) (fst b).

(** [groupby(...)[medal_col]]: the column must exist; a cleared drop-down
    passes [None], which names no column. *)
Definition select_column (medal_col : option Metric) : Callback (Row -> Z) :=
  match medal_col with
  | Some m => ret (metric_col m)
  | None => raise (KeyError "Column not found: None")
  end.

(** The column name in an error text. *)
Definition medal_name (m : option Metric) : string :=
  match m with
  | Some m => metric_name m
  | None => "None"
  end.

(** [selected_medal_type.replace("_", " ")]. *)
Definition medal_label (m : option Metric) : string :=
  match m with
  | Some m => replace_char "_"%char " "%char (metric_name m)
  | None => ""
  end.

(** [not selected_country]: [None] and the empty string are falsy. *)
Definition falsy (selected_country : option string) : bool :=
  match selected_country with
  | None => true
  | Some s => String.eqb s ""
  end.

Definition str_of_country (selected_country : option string) : string :=
  match selected_country with
  | None => "None"
  | Some s => s
  end.

Definition update_pie_chart (selected_country : option string)
  : Callback (Figure (string * Z)) :=
  if falsy selected_country then
    ret {| kind := Pie; title := "Please select a country"; data := [];
           annotations := ["No country selected"%string];
           color_discrete_map := []; marker_color := None |}
  else
    df <- global df ;;
    let country_data :=
      filter (fun r => match selected_country with
                       | Some c => String.eqb (Country_Name r) c
                       | None => false
                       end) df in
    match country_data with
    | [] =>
        ret {| kind := Pie;
               title := ("No data for " ++ str_of_country selected_country
                           ++ " (1992-2020)")%string;
               data := [];
               annotations := ["No data available"%string];
               color_discrete_map := []; marker_color := None |}
    | _ :: _ =>
        let medal_counts_df :=
          [("Gold"%string, sum_Z (map Gold country_data));
           ("Silver"%string, sum_Z (map Silver country_data));
           ("Bronze"%string, sum_Z (map Bronze country_data))] in
        ret {| kind := Pie;
               title := ("Medal Distribution for "
                           ++ str_of_country selected_country
                           ++ " (1992-2020)")%string;
               data := medal_counts_df;
               annotations := [];
               color_discrete_map :=
                 [("Gold", "gold"); ("Silver", "silver");
                  ("Bronze", "#cd7f32")]%string;
               marker_color := None |}
    end.

Definition update_map_chart (selected_medal_type : option Metric)
  : Callback (Figure (string * Z)) :=
  let medal_col := selected_medal_type in
  df <- global df ;;
  col <- select_column medal_col ;;
  let map_data := groupby_sum String.eqb str_le Country_Name col df in
  ret {| kind := Choropleth;
         title := ("Total " ++ medal_label selected_medal_type
                     ++ " by Country (1992-2020)")%string;
         data := map_data;
         annotations := []; color_discrete_map := [];
         marker_color := None |}.

Definition update_area_chart (selected_medal_type : option Metric)
  : Callback (Figure (string * Z * Z)) :=
  let medal_col := selected_medal_type in
  frame <- global df_frame ;;
  let df := frame_rows frame in
  col <- select_column medal_col ;;
  let df_country_year_medals :=
    groupby_sum key2_eqb key2_le (fun r => (Country_Name r, Year r)) col df in
  top_10 <- nlargest_checked frame series_nlargest_error 10
              (groupby_sum String.eqb str_le Country_Name col df) ;;
  let top_10_countries_overall := map fst top_10 in
  let df_top_10 :=
    filter (fun row => str_in (fst (fst row)) top_10_countries_overall)
           df_country_year_medals in
  ret {| kind := Area;
         title := ("Top 10 Countries by " ++ medal_label selected_medal_type
                     ++ " (1992-2020)")%string;
         data := df_top_10;
         annotations := []; color_discrete_map := [];
         marker_color := None |}.

(** [current_df_bar['Year'] == selected_year_value], row by row. *)
Definition year_is (selected_year_value : option YearValue) (y : Z) : bool :=
  match selected_year_value with
  | Some (YInt v) => y =? v
  | _ => false
  end.

(** [item['value'] == selected_year_value]. *)
Definition option_matches (selected_year_value : option YearValue)
           (item : YearOption) : bool :=
  match selected_year_value with
  | Some v => YearValue_eqb (value item) v
  | None => false
  end.

Definition str_of_year_value (selected_year_value : option YearValue)
  : string :=
  match selected_year_value with
  | None => "None"
  | Some YAll => "All"
  | Some (YInt y) => str_of_int y
  end.

Definition is_All (selected_year_value : option YearValue) : bool :=
  match selected_year_value with
  | Some YAll => true
  | _ => false
  end.

Definition bar_color (medal_col : option Metric) : option string :=
  match medal_col with
  | Some MGold => Some "gold"
  | Some MSilver => Some "silver"
  | Some MBronze => Some "#cd7f32"
  | _ => None
  end.

Definition update_bar_chart (selected_medal_type : option Metric)
           (selected_year_value : option YearValue)
  : Callback (Figure (string * Z)) :=
  let medal_col := selected_medal_type in
  frame <- global df_frame ;;
  let current_df_bar := frame_rows frame in
  selection <-
    (if negb (is_All selected_year_value) then
       year_options <- global year_options ;;
       let year_label_info_obj :=
         find (option_matches selected_year_value) year_options in
       ret (filter (fun r => year_is selected_year_value (Year r))
                   current_df_bar,
            match year_label_info_obj with
            | Some item => label item
            | None => str_of_year_value selected_year_value
            end)
     else ret (current_df_bar, "All Years (1992-2020)")) ;;
  let '(current_df_bar, year_title_segment) := selection in
  col <- select_column medal_col ;;
  let df_grouped_bar :=
    groupby_sum String.eqb str_le Country_Name col current_df_bar in
  df_grouped_bar <- nlargest_checked frame
                      (frame_nlargest_error (medal_name medal_col))
                      10 df_grouped_bar ;;
  ret {| kind := Bar;
         title := ("Top 10 Countries by " ++ medal_label selected_medal_type
                     ++ " in " ++ year_title_segment)%string;
         data := df_grouped_bar;
         annotations := []; color_discrete_map := [];
         marker_color := bar_color medal_col |}.

(* ================================================================== *)
(** ** The running application *)

(** One firing of a callback by the framework, with the values of its
    inputs. *)
Inductive Event :=
| PieInput (country : option string)
| MapInput (medal : option Metric)
| AreaInput (medal : option Metric)
| BarInput (medal : option Metric) (year : option YearValue).

(** The framework runs the callback, sends the figure (or reports the
    exception) and keeps serving with the globals the callback left. *)
Definition dispatch (ev : Event) (g : Globals) : Globals :=
  match ev with
  | PieInput c => snd (update_pie_chart c g)
  | MapInput m => snd (update_map_chart m g)
  | AreaInput m => snd (update_area_chart m g)
  | BarInput m y => snd (update_bar_chart m y g)
  end.

Definition serve (evs : list Event) (g : Globals) : Globals :=
  fold_left (fun g ev => dispatch ev g) evs g.

(** The layout's initial value of the country drop-down:
    [all_countries[0] if all_countries else None]. *)
Definition country_dropdown_value (g : Globals) : option string :=
  match all_countries g with
  | c :: _ => Some c
  | [] => None
  end.

(** The layout's options of the country drop-down. *)
Definition country_dropdown_options (g : Globals) : list (string * string) :=
  map (fun country => (country, country)) (all_countries g).

(* ================================================================== *)
(** ** Vocabulary of the properties *)

(** The countries occurring in a table, and the sum of a column over the
    rows of one country. *)
Definition countries (table : list Row) : list string :=
  map Country_Name table.

Definition country_total (col : Row -> Z) (table : list Row) (c : string)
  : Z :=
  sum_Z (map col (filter (fun r => String.eqb (Country_Name r) c) table)).

Definition desc (a b : string * Z) : bool := snd b <=? snd a.

(** The sum of a column over the rows of one country in one year. *)
Definition country_year_total (col : Row -> Z) (table : list Row)
           (c : string) (y : Z) : Z :=
  sum_Z (map col
             (filter (fun r => key2_eqb (Country_Name r, Year r) (c, y))
                     table)).

(** The distinct countries of the rows of an area chart. *)
Definition area_countries (rows : list (string * Z * Z)) : list string :=
  unique String.eqb (map (fun row => fst (fst row)) rows).

(** What "the ten countries with the largest sums, largest first" means
    for a list of (country, sum) rows over a table: the rows are distinct
    countries of the table with their sums, in descending order, as many
    as ten or as the table has countries, and no country left out has a
    larger sum than a country kept. *)
Definition top10_of (col : Row -> Z) (table : list Row)
           (rows : list (string * Z)) : Prop :=
  NoDup (map fst rows) /\
  (forall c v, In (c, v) rows ->
               In c (countries table) /\ v = country_total col table c) /\
  StronglySorted (fun a b => snd b <= snd a) rows /\
  List.length rows =
    Nat.min 10 (List.length (unique String.eqb (countries table))) /\
  (forall c c', In c (map fst rows) -> In c' (countries table) ->
                ~ In c' (map fst rows) ->
                country_total col table c' <= country_total col table c).

(** The globals with the table replaced by another one. *)
Definition with_df (g : Globals) (table : list Row) : Globals :=
  {| df_frame := Lines table;
     all_countries := all_countries g;
     medal_types := medal_types g;
     year_options := year_options g |}.

(** A callback body that leaves the globals as it found them. *)
Definition read_only A (c : Callback A) : Prop := forall g, snd (c g) = g.

(** The rows a callback call hands to the chart; none when it raised. *)
Definition figure_data A (r : Outcome (Figure A) * Globals) : list A :=
  match fst r with
  | Return fig => data fig
  | Raise _ => []
  end.

(** The title a callback call gives its chart. *)
Definition figure_title A (r : Outcome (Figure A) * Globals)
  : option string :=
  match fst r with
  | Return fig => Some (title fig)
  | Raise _ => None
  end.

(** The label of the year option built from a row of the table. *)
Definition year_label (r : Row) : string :=
  (str_of_int (Year r) ++ " - " ++ Host_city r ++ ", " ++ Host_country r)%string.

(** The columns of a source line that loading copies unchanged. *)
Definition copied_of_line (rec : MedalRecord)
  : Z * string * string * string * Z * Z * Z :=
  (rec_Year rec, rec_Host_country rec, rec_Host_city rec,
   rec_Country_Code rec, rec_Gold rec, rec_Silver rec, rec_Bronze rec).

Definition copied_of_row (r : Row)
  : Z * string * string * string * Z * Z * Z :=
  (Year r, Host_country r, Host_city r, Country_Code r,
   Gold r, Silver r, Bronze r).

(** The rows of the table a year selection keeps for the bar chart. *)
Definition selected_rows (sel : option YearValue) (table : list Row)
  : list Row :=
  if is_All sel then table
  else filter (fun r => year_is sel (Year r)) table.

(* ================================================================== *)
(** ** A small table *)

Definition sample_line (y : Z) (city country name code : string)
           (g s b : Z) : MedalRecord :=
  {| rec_Year := y; rec_Host_country := country; rec_Host_city := city;
     rec_Country_Name := name; rec_Country_Code := code;
     rec_Gold := g; rec_Silver := s; rec_Bronze := b |}.

Definition sample_records : list MedalRecord :=
  [ sample_line 1988 "Seoul" "South Korea" "Soviet Union" "URS" 55 31 46;
    sample_line 2012 "London" "United Kingdom" "United States" "USA" 46 29 29;
    sample_line 2012 "London" "United Kingdom" "China" "CHN" 38 27 23;
    sample_line 2012 "London" "United Kingdom" "Great Britain" "GBR" 29 17 19;
    sample_line 2012 "London" "United Kingdom" "Russia" "RUS" 24 26 32;
    sample_line 2012 "London" "United Kingdom" "South Korea" "KOR" 13 8 7;
    sample_line 2012 "London" "United Kingdom" "Germany" "GER" 11 19 14;
    sample_line 2012 "London" "United Kingdom" "France" "FRA" 11 11 12;
    sample_line 2012 "London" "United Kingdom" "Italy" "ITA" 8 9 11;
    sample_line 2012 "London" "United Kingdom" "Hungary" "HUN" 8 4 5;
    sample_line 2012 "London" "United Kingdom" "Australia" "AUS" 7 16 12;
    sample_line 2012 "London" "United Kingdom" "Japan" "JPN" 7 14 17;
    sample_line 2016 "Rio de Janeiro" "Brazil" "United States" "USA" 46 37 38;
    sample_line 2016 "Rio de Janeiro" "Brazil" "China" "CHN" 26 18 26;
    sample_line 2016 "Rio de Janeiro" "Brazil" "Japan" "JPN" 12 8 21;
    sample_line 2024 "Paris" "France" "Japan" "JPN" 20 12 13 ]%string.

Definition sample_read : ReadCsv :=
  ReadOk (expected_cols_from_user ++ ["Notes"%string]) sample_records.

(** A CSV with its header and no line. *)
Definition header_only_read : ReadCsv := ReadOk expected_cols_from_user [].

Definition header_only_globals : Globals :=
  Eval vm_compute in
    match startup header_only_read with
    | Running g => g
    | Exited _ => mkGlobals (Lines []) [] [] []
    end.

Definition sample_globals : Globals :=
  Eval vm_compute in
    match startup sample_read with
    | Running g => g
    | Exited _ => mkGlobals HeaderOnly [] [] []
    end.

(* ================================================================== *)
(** * Properties *)

(** ** The string order *)

Lemma str_le_total (a b : string) : str_le a b = true \/ str_le b a = true.
Proof. apply String.leb_total. Qed.

Lemma str_le_trans (a b c : string) :
  str_le a b = true -> str_le b c = true -> str_le a c = true.
Proof.
  unfold str_le, String.leb.
  change String.compare with String_as_OT.compare.
  assert (irr : forall x, ~ String_as_OT.lt x x)
    by (intro x; apply (StrictOrder_Irreflexive x)).
  assert (tr : forall x y z, String_as_OT.lt x y -> String_as_OT.lt y z ->
                             String_as_OT.lt x z)
    by (intros x y z; apply (StrictOrder_Transitive x y z)).
  destruct (String_as_OT.compare_spec a b) as [Hab|Hab|Hab]; try discriminate;
    destruct (String_as_OT.compare_spec b c) as [Hbc|Hbc|Hbc]; try discriminate;
    intros _ _; destruct (String_as_OT.compare_spec a c) as [H|H|H]; auto;
    exfalso; unfold String_as_OT.eq in *; subst;
    solve [ eapply irr; eauto
          | eapply irr, tr; eauto
          | eapply (irr a), tr; [eapply tr|]; eauto ].
Qed.

(** ** Sorting, duplicates, prefixes *)

Lemma In_firstn A (n : nat) (l : list A) (x : A) :
  In x (firstn n l) -> In x l.
Proof.
  intros H. rewrite <- (firstn_skipn n l). apply in_or_app. left; exact H.
Qed.

Lemma In_skipn A (n : nat) (l : list A) (x : A) :
  In x (skipn n l) -> In x l.
Proof.
  intros H. rewrite <- (firstn_skipn n l). apply in_or_app. right; exact H.
Qed.

Lemma NoDup_firstn A (n : nat) (l : list A) : NoDup l -> NoDup (firstn n l).
Proof.
  intros H. rewrite <- (firstn_skipn n l) in H.
  eapply NoDup_app_remove_r; eauto.
Qed.

Section SortFacts.
Variable A : Type.
Variable le : A -> A -> bool.

Lemma insert_by_perm (x : A) (l : list A) :
  Permutation (insert_by le x l) (x :: l).
Proof.
  induction l as [|y l IH]; simpl; auto.
  destruct (le x y); auto.
  rewrite IH. apply perm_swap.
Qed.

Lemma sort_by_perm (l : list A) : Permutation (sort_by le l) l.
Proof.
  induction l as [|x l IH]; simpl; auto.
  rewrite insert_by_perm. auto.
Qed.

Lemma sort_by_In (x : A) (l : list A) : In x (sort_by le l) <-> In x l.
Proof.
  split; apply Permutation_in;
    [apply sort_by_perm | apply Permutation_sym, sort_by_perm].
Qed.

Lemma sort_by_length (l : list A) : List.length (sort_by le l) = List.length l.
Proof. apply Permutation_length, sort_by_perm. Qed.

Lemma sort_by_NoDup (l : list A) : NoDup l -> NoDup (sort_by le l).
Proof.
  apply Permutation_NoDup, Permutation_sym, sort_by_perm.
Qed.

Hypothesis le_total : forall a b, le a b = true \/ le b a = true.
Hypothesis le_trans :
  forall a b c, le a b = true -> le b c = true -> le a c = true.

Let lep (a b : A) : Prop := le a b = true.

Lemma insert_by_sorted (x : A) (l : list A) :
  StronglySorted lep l -> StronglySorted lep (insert_by le x l).
Proof.
  induction 1 as [|y l Hs IH Hall]; simpl.
  - constructor; constructor.
  - destruct (le x y) eqn:E.
    + constructor; [constructor; assumption|].
      constructor; [exact E|].
      eapply Forall_impl; [|exact Hall].
      intros z Hz. eapply le_trans; eauto.
    + constructor; [exact IH|].
      assert (Hyx : lep y x) by (destruct (le_total x y); [congruence|auto]).
      eapply Permutation_Forall;
        [apply Permutation_sym, insert_by_perm|].
      constructor; assumption.
Qed.

Lemma sort_by_sorted (l : list A) : StronglySorted lep (sort_by le l).
Proof.
  induction l as [|x l IH]; simpl; [constructor|].
  apply insert_by_sorted, IH.
Qed.

(** In a sorted list every element of a prefix is [le] every element of
    the rest. *)
Lemma sorted_firstn_skipn (n : nat) (l : list A) (x y : A) :
  StronglySorted lep l ->
  In x (firstn n l) -> In y (skipn n l) -> le x y = true.
Proof.
  intros Hs; revert n; induction Hs as [|z l Hs IH Hall]; intros n Hx Hy.
  - destruct n; simpl in *; contradiction.
  - destruct n as [|n]; simpl in *; [contradiction|].
    destruct Hx as [->|Hx].
    + rewrite Forall_forall in Hall. apply Hall.
      eapply In_skipn; eauto.
    + eapply IH; eauto.
Qed.

Lemma sorted_firstn (n : nat) (l : list A) :
  StronglySorted lep l -> StronglySorted lep (firstn n l).
Proof.
  intros Hs; revert n; induction Hs as [|z l Hs IH Hall]; intros [|n];
    simpl; try constructor; auto.
  rewrite Forall_forall in *. intros y Hy. apply Hall.
  eapply In_firstn; eauto.
Qed.
End SortFacts.

Section UniqueFacts.
Variable A : Type.
Variable eqb : A -> A -> bool.
Hypothesis eqb_spec : forall a b, eqb a b = true <-> a = b.

Lemma mem_by_In (x : A) (l : list A) : mem_by eqb x l = true <-> In x l.
Proof.
  unfold mem_by. rewrite existsb_exists. split.
  - intros (y & Hy & E). apply eqb_spec in E. subst. exact Hy.
  - intros H. exists x. split; [exact H | apply eqb_spec; reflexivity].
Qed.

Lemma unique_from_In (x : A) (seen l : list A) :
  In x (unique_from eqb seen l) <-> In x l /\ ~ In x seen.
Proof.
  revert seen; induction l as [|y l IH]; intros seen; simpl.
  - tauto.
  - destruct (mem_by eqb y seen) eqn:E.
    + apply mem_by_In in E. rewrite IH.
      split; [tauto|]. intros [[->|H] Hn]; tauto.
    + assert (Hy : ~ In y seen)
        by (intro H; apply mem_by_In in H; congruence).
      simpl. rewrite IH. simpl.
      split.
      * intros [->|[H Hn]]; [tauto|]. split; [tauto|]. tauto.
      * intros [[->|H] Hn]; [tauto|].
        destruct (eqb y x) eqn:Eyx.
        -- apply eqb_spec in Eyx. tauto.
        -- right. split; [exact H|]. intros [->|Hs]; [|tauto].
           assert (eqb x x = true) by (apply eqb_spec; reflexivity).
           congruence.
Qed.

Lemma unique_from_NoDup (seen l : list A) :
  NoDup (unique_from eqb seen l).
Proof.
  revert seen; induction l as [|y l IH]; intros seen; simpl.
  - constructor.
  - destruct (mem_by eqb y seen); [apply IH|].
    constructor; [|apply IH].
    rewrite unique_from_In. simpl. tauto.
Qed.

Lemma unique_In (x : A) (l : list A) : In x (unique eqb l) <-> In x l.
Proof. unfold unique. rewrite unique_from_In. simpl. tauto. Qed.

Lemma unique_NoDup (l : list A) : NoDup (unique eqb l).
Proof. apply unique_from_NoDup. Qed.
End UniqueFacts.

(** ** Grouping and top-N *)

Lemma desc_total (a b : string * Z) : desc a b = true \/ desc b a = true.
Proof. unfold desc. rewrite !Z.leb_le. lia. Qed.

Lemma desc_trans (a b c : string * Z) :
  desc a b = true -> desc b c = true -> desc a c = true.
Proof. unfold desc. rewrite !Z.leb_le. lia. Qed.

Section GroupByFacts.
Variable K : Type.
Variable key_eqb : K -> K -> bool.
Variable key_le : K -> K -> bool.
Hypothesis key_eqb_spec : forall a b, key_eqb a b = true <-> a = b.
Variable key : Row -> K.
Variable col : Row -> Z.
Variable table : list Row.

Let grouped := groupby_sum key_eqb key_le key col table.

Lemma groupby_keys :
  map fst grouped = sort_by key_le (unique key_eqb (map key table)).
Proof.
  unfold grouped, groupby_sum. rewrite map_map. simpl. apply map_id.
Qed.

Lemma groupby_keys_NoDup : NoDup (map fst grouped).
Proof.
  rewrite groupby_keys. apply sort_by_NoDup, unique_NoDup, key_eqb_spec.
Qed.

Lemma groupby_keys_In (k : K) :
  In k (map fst grouped) <-> In k (map key table).
Proof.
  rewrite groupby_keys, sort_by_In. apply unique_In, key_eqb_spec.
Qed.

Lemma groupby_In (k : K) (v : Z) :
  In (k, v) grouped <->
  In k (map key table) /\
  v = sum_Z (map col (filter (fun r => key_eqb (key r) k) table)).
Proof.
  unfold grouped, groupby_sum. rewrite in_map_iff. split.
  - intros (k' & E & Hk). inversion E; subst. split; [|reflexivity].
    apply sort_by_In in Hk. eapply unique_In; eauto.
  - intros [Hk ->]. exists k. split; [reflexivity|].
    apply sort_by_In. apply unique_In; auto.
Qed.

Lemma groupby_length :
  List.length grouped = List.length (unique key_eqb (map key table)).
Proof.
  unfold grouped, groupby_sum. rewrite length_map. apply sort_by_length.
Qed.
End GroupByFacts.

Lemma nlargest_top10 (col : Row -> Z) (table : list Row) :
  top10_of col table
    (nlargest 10 (groupby_sum String.eqb str_le Country_Name col table)).
Proof.
  set (grouped := groupby_sum String.eqb str_le Country_Name col table).
  assert (Hperm : Permutation (sort_by (fun a b => snd b <=? snd a) grouped)
                              grouped) by apply sort_by_perm.
  assert (Hnd : NoDup (map fst (sort_by (fun a b => snd b <=? snd a) grouped))).
  { eapply Permutation_NoDup;
      [apply Permutation_map, Permutation_sym, Hperm|].
    apply groupby_keys_NoDup, String.eqb_eq. }
  assert (Hin : forall c v, In (c, v) grouped ->
            In c (countries table) /\ v = country_total col table c).
  { intros c v H. apply (groupby_In String.eqb str_le String.eqb_eq) in H.
    exact H. }
  assert (Hsorted : StronglySorted (fun a b => desc a b = true)
                      (sort_by desc grouped))
    by (apply sort_by_sorted; [apply desc_total | apply desc_trans]).
  unfold nlargest. fold desc in *.
  split; [|split; [|split; [|split]]].
  - rewrite <- firstn_map. apply NoDup_firstn, Hnd.
  - intros c v H. apply Hin. eapply Permutation_in; [exact Hperm|].
    eapply In_firstn; eauto.
  - apply (sorted_firstn desc 10%nat) in Hsorted.
    eapply StronglySorted_ind with
      (P := fun l => StronglySorted (fun a b => snd b <= snd a) l);
      [constructor| |exact Hsorted].
    intros a l _ IH Hall. constructor; [exact IH|].
    eapply Forall_impl; [|exact Hall]. intros b Hb.
    unfold desc in Hb. apply Z.leb_le in Hb. exact Hb.
  - rewrite length_firstn, sort_by_length. unfold grouped.
    rewrite groupby_length. reflexivity.
  - intros c c' Hc Hc' Hout.
    apply in_map_iff in Hc. destruct Hc as ([c0 v] & E & Hc). simpl in E; subst c0.
    assert (Hg' : In (c', country_total col table c') grouped).
    { apply (groupby_In String.eqb str_le String.eqb_eq). split; auto. }
    apply (Permutation_in _ (Permutation_sym Hperm)) in Hg'.
    rewrite <- (firstn_skipn 10%nat (sort_by desc grouped)) in Hg'.
    apply in_app_or in Hg'. destruct Hg' as [Hg'|Hg'].
    + exfalso. apply Hout. apply in_map_iff.
      exists (c', country_total col table c'). split; auto.
    + pose proof (@sorted_firstn_skipn _ desc 10%nat _ _ _ Hsorted Hc Hg') as Hd.
      unfold desc in Hd. simpl in Hd. apply Z.leb_le in Hd.
      assert (Hv : v = country_total col table c).
      { apply Hin. eapply Permutation_in; [exact Hperm|].
        eapply In_firstn; eauto. }
      subst v. exact Hd.
Qed.

Lemma str_in_In (x : string) (l : list string) : str_in x l = true <-> In x l.
Proof. apply (mem_by_In String.eqb String.eqb_eq). Qed.

Lemma key2_eqb_spec (a b : string * Z) : key2_eqb a b = true <-> a = b.
Proof.
  destruct a as [c y], b as [c' y']. unfold key2_eqb; simpl.
  rewrite andb_true_iff, String.eqb_eq, Z.eqb_eq.
  split; [intros [-> ->]; reflexivity | intros E; inversion E; auto].
Qed.

Lemma filter_keeps_distinct_keys K V (keep : K * V -> bool)
      (rows : list (K * V)) :
  NoDup (map fst rows) -> NoDup (map fst (filter keep rows)).
Proof.
  intros Hnd. induction rows as [|row rows IH]; simpl; [constructor|].
  inversion Hnd as [|? ? Hrow Hrest]; subst.
  destruct (keep row); simpl; auto.
  constructor; auto.
  intro Hin. apply Hrow. apply in_map_iff in Hin.
  destruct Hin as (other & E & Hother). apply filter_In in Hother.
  apply in_map_iff. exists other. tauto.
Qed.

(* ================================================================== *)
(** ** What the area and bar callbacks hand to the chart *)

Lemma selected_rows_nil (sel : option YearValue) : selected_rows sel [] = [].
Proof. unfold selected_rows. destruct (is_All sel); reflexivity. Qed.

Lemma bar_rows_eq (m : Metric) (sel : option YearValue) (g : Globals) :
  figure_data (update_bar_chart (Some m) sel g)
  = nlargest 10 (groupby_sum String.eqb str_le Country_Name (metric_col m)
                             (selected_rows sel (df g))).
Proof.
  unfold figure_data, update_bar_chart, bind, global, nlargest_checked, df.
  destruct (df_frame g) as [|rows]; simpl frame_rows; simpl medal_dtype;
    cbv iota.
  - rewrite selected_rows_nil. destruct sel as [[|y]|]; reflexivity.
  - destruct sel as [[|y]|]; reflexivity.
Qed.

Lemma area_rows_eq (m : Metric) (g : Globals) :
  figure_data (update_area_chart (Some m) g)
  = filter (fun row : string * Z * Z =>
              str_in (fst (fst row))
                     (map fst (nlargest 10
                                 (groupby_sum String.eqb str_le Country_Name
                                              (metric_col m) (df g)))))
           (groupby_sum key2_eqb key2_le
                        (fun r => (Country_Name r, Year r))
                        (metric_col m) (df g)).
Proof.
  unfold figure_data, update_area_chart, bind, global, nlargest_checked, df.
  destruct (df_frame g) as [|rows]; reflexivity.
Qed.

Lemma area_returns (m : Metric) (g : Globals) :
  medal_dtype (df_frame g) = int64 ->
  exists fig,
    update_area_chart (Some m) g = (Return fig, g) /\
    data fig = figure_data (update_area_chart (Some m) g).
Proof.
  intros Hnum.
  unfold figure_data, update_area_chart, bind, global, nlargest_checked.
  simpl. rewrite Hnum. eexists. split; reflexivity.
Qed.

Lemma bar_returns (m : Metric) (sel : option YearValue) (g : Globals) :
  medal_dtype (df_frame g) = int64 ->
  exists fig,
    update_bar_chart (Some m) sel g = (Return fig, g) /\
    data fig = figure_data (update_bar_chart (Some m) sel g).
Proof.
  intros Hnum.
  unfold figure_data, update_bar_chart, bind, global, nlargest_checked.
  destruct sel as [[|y]|]; simpl; rewrite Hnum; eexists; split; reflexivity.
Qed.

Lemma area_raises (m : Metric) (g : Globals) :
  medal_dtype (df_frame g) = object ->
  update_area_chart (Some m) g
  = (Raise (TypeError series_nlargest_error), g).
Proof.
  intros Hobj. unfold update_area_chart, bind, global, nlargest_checked.
  simpl. rewrite Hobj. reflexivity.
Qed.

Lemma bar_raises (m : Metric) (sel : option YearValue) (g : Globals) :
  medal_dtype (df_frame g) = object ->
  update_bar_chart (Some m) sel g
  = (Raise (TypeError (frame_nlargest_error (metric_name m))), g).
Proof.
  intros Hobj. unfold update_bar_chart, bind, global, nlargest_checked.
  destruct sel as [[|y]|]; simpl; rewrite Hobj; reflexivity.
Qed.

(* ================================================================== *)
(** ** Area chart *)

(** C1. On the frame of a CSV that has its header and no line, where the
    table has no country at all, the area callback does not return the
    rows of zero countries: [nlargest] raises [TypeError] on the
    object-dtype column. *)
Theorem area_chart_of_header_only_csv (m : Metric) :
  startup header_only_read = Running header_only_globals /\
  df header_only_globals = [] /\
  update_area_chart (Some m) header_only_globals
  = (Raise (TypeError "Cannot use method 'nlargest' with dtype object"),
     header_only_globals).
Proof. split; [|split]; reflexivity. Qed.

(** X21. When the CSV had at least one line (the medal columns are
    int64), the area callback returns, for each of the four medal
    metrics, per-(country, year) rows -- one row for each (country, year)
    pair of the table whose country is kept, with the metric summed over
    the pair -- for exactly ten distinct countries, or for all of them
    when the table has fewer than ten; these countries are those with the
    largest all-years sums of the metric: no country left out has a
    larger sum than a country kept. *)
Theorem area_top10_countries (m : Metric) (g : Globals) :
  medal_dtype (df_frame g) = int64 ->
  exists fig,
    update_area_chart (Some m) g = (Return fig, g) /\
    let col := metric_col m in
    let shown := area_countries (data fig) in
    List.length shown =
      Nat.min 10 (List.length (unique String.eqb (countries (df g)))) /\
    (forall c, In c shown -> In c (countries (df g))) /\
    (forall c c', In c shown -> In c' (countries (df g)) -> ~ In c' shown ->
                  country_total col (df g) c' <= country_total col (df g) c) /\
    NoDup (map fst (data fig)) /\
    (forall c y v,
        In (c, y, v) (data fig) <->
        In c shown /\
        (exists r, In r (df g) /\ Country_Name r = c /\ Year r = y) /\
        v = country_year_total col (df g) c y).
Proof.
  intros Hnum. destruct (area_returns m g Hnum) as (fig & Efig & Hdata).
  exists fig. split; [exact Efig|]. cbv zeta. rewrite Hdata, area_rows_eq.
  clear fig Efig Hdata.
  set (col := metric_col m). set (table := df g).
  set (cy := groupby_sum key2_eqb key2_le
                         (fun r => (Country_Name r, Year r)) col table).
  set (top := nlargest 10
                (groupby_sum String.eqb str_le Country_Name col table)).
  destruct (nlargest_top10 col table)
    as (Hnd & Hrows & _ & Hlen & Hdom). fold top in Hnd, Hrows, Hlen, Hdom.
  set (rows := filter (fun row : string * Z * Z =>
                         str_in (fst (fst row)) (map fst top)) cy).
  assert (Hrow : forall c y v,
             In (c, y, v) rows <->
             In c (map fst top) /\
             (exists r, In r table /\ Country_Name r = c /\ Year r = y) /\
             v = country_year_total col table c y).
  { intros c y v. unfold rows. rewrite filter_In. simpl.
    rewrite str_in_In. unfold cy.
    rewrite (groupby_In key2_eqb key2_le key2_eqb_spec).
    rewrite in_map_iff. unfold country_year_total.
    split.
    - intros [[(r & E & Hr) Hv] Hc]. inversion E; subst c y.
      split; [exact Hc|]. split; [|exact Hv]. exists r; auto.
    - intros (Hc & (r & Hr & Ec & Ey) & Hv). subst c y.
      split; [split; [|exact Hv]|exact Hc]. exists r; auto. }
  assert (Hshown : forall c, In c (area_countries rows) <-> In c (map fst top)).
  { intros c. unfold area_countries.
    rewrite (unique_In String.eqb String.eqb_eq), in_map_iff. split.
    - intros ([[c0 y] v] & E & Hin). simpl in E; subst c0.
      apply Hrow in Hin. tauto.
    - intros Hc. pose proof Hc as Hc0.
      apply in_map_iff in Hc0. destruct Hc0 as ([c0 v] & E & Hin).
      simpl in E; subst c0. apply Hrows in Hin. destruct Hin as [Hin _].
      unfold countries in Hin. apply in_map_iff in Hin.
      destruct Hin as (r & Er & Hr).
      exists (c, Year r, country_year_total col table c (Year r)).
      split; [reflexivity|]. apply Hrow. split; [exact Hc|].
      split; [|reflexivity]. exists r; auto. }
  split; [|split; [|split; [|split]]].
  - rewrite <- Hlen, <- (length_map fst top).
    apply Permutation_length, NoDup_Permutation; auto.
    apply unique_NoDup, String.eqb_eq.
  - intros c Hc. apply Hshown in Hc. apply in_map_iff in Hc.
    destruct Hc as ([c0 v] & E & Hin). simpl in E; subst c0.
    apply Hrows in Hin. tauto.
  - intros c c' Hc Hc' Hout. apply Hdom; auto.
    + apply Hshown; exact Hc.
    + intro H. apply Hout, Hshown, H.
  - apply filter_keeps_distinct_keys.
    apply (groupby_keys_NoDup key2_eqb key2_le key2_eqb_spec).
  - intros c y v. rewrite Hrow, Hshown. reflexivity.
Qed.

(* ================================================================== *)
(** ** Bar chart *)

(** C2. On the frame of a CSV that has its header and no line the bar
    callback, with the year selection 'All' as with a year, does not
    return an empty list of rows: [nlargest] raises [TypeError] on the
    object-dtype column. *)
Theorem bar_chart_of_header_only_csv (m : Metric) (y : Z) :
  startup header_only_read = Running header_only_globals /\
  df header_only_globals = [] /\
  update_bar_chart (Some m) (Some YAll) header_only_globals
  = (Raise (TypeError ("Column '" ++ metric_name m
                         ++ "' has dtype object, cannot use method 'nlargest' with this dtype")),
     header_only_globals) /\
  update_bar_chart (Some m) (Some (YInt y)) header_only_globals
  = (Raise (TypeError ("Column '" ++ metric_name m
                         ++ "' has dtype object, cannot use method 'nlargest' with this dtype")),
     header_only_globals).
Proof. repeat split; reflexivity. Qed.

(** X22. When the CSV had at least one line (the medal columns are
    int64), the bar callback with the year selection ['All'] returns, for
    each medal metric, at most ten (country, sum) rows, in descending
    order of the summed metric, which are the ten largest sums over the
    whole table; with a year selected it returns the rows the same
    computation gives on the table restricted to the rows of that year,
    none when the year has no row. *)
Theorem bar_top10_rows (m : Metric) (g : Globals) :
  medal_dtype (df_frame g) = int64 ->
  (exists fig,
      update_bar_chart (Some m) (Some YAll) g = (Return fig, g) /\
      (List.length (data fig) <= 10)%nat /\
      top10_of (metric_col m) (df g) (data fig)) /\
  (forall y : Z,
      let of_year := filter (fun r => Year r =? y) (df g) in
      exists fig fig_all,
        update_bar_chart (Some m) (Some (YInt y)) g = (Return fig, g) /\
        update_bar_chart (Some m) (Some YAll) (with_df g of_year)
          = (Return fig_all, with_df g of_year) /\
        data fig = data fig_all /\
        (List.length (data fig) <= 10)%nat /\
        top10_of (metric_col m) of_year (data fig)).
Proof.
  intros Hnum. split.
  - destruct (bar_returns m (Some YAll) g Hnum) as (fig & Efig & Hdata).
    exists fig. split; [exact Efig|]. rewrite Hdata, bar_rows_eq. split.
    + unfold nlargest. apply firstn_le_length.
    + apply nlargest_top10.
  - intros y of_year.
    destruct (bar_returns m (Some (YInt y)) g Hnum) as (fig & Efig & Hdata).
    destruct (bar_returns m (Some YAll) (with_df g of_year) eq_refl)
      as (fig_all & Eall & Hall).
    exists fig, fig_all.
    split; [exact Efig|]. split; [exact Eall|].
    rewrite Hdata, Hall, !bar_rows_eq.
    split; [reflexivity|]. split.
    + unfold nlargest. apply firstn_le_length.
    + apply nlargest_top10.
Qed.

(* ================================================================== *)
(** ** Map chart *)

(** C4. For each of the four medal metrics the map callback returns
    exactly one (country, sum) row for every distinct country name of the
    table and no other row: nothing is cut off. *)
Theorem map_one_row_per_country (m : Metric) (g : Globals) :
  exists fig,
    update_map_chart (Some m) g = (Return fig, g) /\
    NoDup (map fst (data fig)) /\
    (forall c, In c (map fst (data fig)) <-> In c (countries (df g))) /\
    (forall c v, In (c, v) (data fig) <->
                 In c (countries (df g)) /\
                 v = country_total (metric_col m) (df g) c) /\
    List.length (data fig) =
      List.length (unique String.eqb (countries (df g))).
Proof.
  eexists. split; [reflexivity|]. simpl data.
  split; [|split; [|split]].
  - apply groupby_keys_NoDup, String.eqb_eq.
  - intros c. apply groupby_keys_In, String.eqb_eq.
  - intros c v. apply (groupby_In String.eqb str_le String.eqb_eq).
  - apply groupby_length.
Qed.

(* ================================================================== *)
(** ** Pie chart *)

Lemma sum_Z_add3 (f1 f2 f3 : Row -> Z) (l : list Row) :
  sum_Z (map f1 l) + sum_Z (map f2 l) + sum_Z (map f3 l)
  = sum_Z (map (fun r => f1 r + f2 r + f3 r) l).
Proof. induction l as [|r l IH]; simpl; lia. Qed.

Lemma rows_of_present_country (table : list Row) (c : string) :
  In c (countries table) ->
  filter (fun r => String.eqb (Country_Name r) c) table <> [].
Proof.
  unfold countries. rewrite in_map_iff. intros (r & E & Hr) Hnil.
  assert (H : In r (filter (fun r => String.eqb (Country_Name r) c) table))
    by (apply filter_In; split; [exact Hr | apply String.eqb_eq, E]).
  rewrite Hnil in H. exact H.
Qed.

(** C3. For a country [C] of the table the pie callback returns exactly
    three (label, value) pairs, labelled Gold, Silver and Bronze in that
    order, whose values add up to the sum of Gold + Silver + Bronze over
    the rows of [C].  ([read_csv] reads an empty cell as missing, so a
    country name of the table is never the empty string.) *)
Theorem pie_three_pairs (g : Globals) (C : string) :
  In C (countries (df g)) ->
  C <> ""%string ->
  exists fig gold silver bronze,
    update_pie_chart (Some C) g = (Return fig, g) /\
    data fig = [("Gold"%string, gold); ("Silver"%string, silver);
                ("Bronze"%string, bronze)] /\
    gold + silver + bronze =
      sum_Z (map (fun r => Gold r + Silver r + Bronze r)
                 (filter (fun r => String.eqb (Country_Name r) C) (df g))).
Proof.
  intros Hin Hne.
  unfold update_pie_chart, falsy.
  apply String.eqb_neq in Hne. rewrite Hne.
  unfold bind, global.
  pose proof (@rows_of_present_country _ _ Hin) as Hrows.
  destruct (filter (fun r => String.eqb (Country_Name r) C) (df g))
    as [|r rows] eqn:E; [congruence|].
  eexists. eexists. eexists. eexists.
  split; [reflexivity|]. split; [reflexivity|].
  apply sum_Z_add3.
Qed.

(** C6. The pie callback never raises on a cleared selection or on a
    country without rows: for [None] it returns the empty figure
    annotated 'No country selected', and for a name that is not in the
    table the empty figure annotated 'No data available' (the empty name
    counts as no selection). *)
Theorem pie_placeholder (g : Globals) (c : string) :
  ~ In c (countries (df g)) ->
  update_pie_chart None g =
    (Return {| kind := Pie; title := "Please select a country"; data := [];
               annotations := ["No country selected"%string];
               color_discrete_map := []; marker_color := None |}, g) /\
  update_pie_chart (Some c) g =
    (Return
       (if String.eqb c "" then
          {| kind := Pie; title := "Please select a country"; data := [];
             annotations := ["No country selected"%string];
             color_discrete_map := []; marker_color := None |}
        else
          {| kind := Pie;
             title := ("No data for " ++ c ++ " (1992-2020)")%string;
             data := [];
             annotations := ["No data available"%string];
             color_discrete_map := []; marker_color := None |}), g).
Proof.
  intros Hout. split; [reflexivity|].
  unfold update_pie_chart, falsy.
  destruct (String.eqb c "") eqn:E; [reflexivity|].
  unfold bind, global.
  destruct (filter (fun r => String.eqb (Country_Name r) c) (df g))
    as [|r rows] eqn:F; [reflexivity|].
  exfalso. apply Hout.
  assert (H : In r (filter (fun r => String.eqb (Country_Name r) c) (df g)))
    by (rewrite F; left; reflexivity).
  apply filter_In in H. destruct H as [Hr Hc]. apply String.eqb_eq in Hc.
  unfold countries. apply in_map_iff. exists r; auto.
Qed.

(* ================================================================== *)
(** ** Start-up *)

Lemma frame_rows_make_frame (records : list MedalRecord) :
  frame_rows (make_frame records) = make_df records.
Proof. destruct records; reflexivity. Qed.

Lemma startup_running (src : ReadCsv) (g : Globals) :
  startup src = Running g ->
  exists columns records,
    src = ReadOk columns records /\
    missing_cols columns = [] /\
    df g = make_df records /\
    all_countries g = make_all_countries (df g) /\
    medal_types g = ["Gold"; "Silver"; "Bronze"; "Total_Medals"]%string /\
    year_options g = make_year_options (df g) /\
    df_frame g = make_frame records.
Proof.
  destruct src as [[msg|msg]|columns records]; simpl; try discriminate.
  destruct (missing_cols columns) eqn:E; [|discriminate].
  intros H. inversion H. exists columns, records.
  unfold df. simpl. rewrite frame_rows_make_frame. auto 10.
Qed.

Lemma make_df_In (records : list MedalRecord) (r : Row) :
  In r (make_df records) <->
  exists rec, In rec records /\
              in_years (correct_country_name rec) = true /\
              r = add_Total_Medals (correct_country_name rec).
Proof.
  unfold make_df. rewrite in_map_iff. split.
  - intros (rec' & E & H). apply filter_In in H. destruct H as [H Hy].
    apply in_map_iff in H. destruct H as (rec & E' & H). subst.
    exists rec. auto.
  - intros (rec & H & Hy & ->). exists (correct_country_name rec).
    split; [reflexivity|]. apply filter_In. split; [|exact Hy].
    apply in_map. exact H.
Qed.

(** C7. After loading, every row of the working table has its year
    between 1992 and 2020 inclusive, carries [Total_Medals] equal to its
    Gold + Silver + Bronze, and is not named 'United States': a source
    line with that name and a year in range is in the table under the
    name 'United States of America'. *)
Theorem working_table_rows (src : ReadCsv) (g : Globals) :
  startup src = Running g ->
  Forall (fun r => 1992 <= Year r <= 2020 /\
                   Total_Medals r = Gold r + Silver r + Bronze r /\
                   Country_Name r <> "United States"%string) (df g) /\
  (forall columns records rec,
      src = ReadOk columns records ->
      In rec records ->
      rec_Country_Name rec = "United States"%string ->
      1992 <= rec_Year rec <= 2020 ->
      In {| Year := rec_Year rec;
            Host_country := rec_Host_country rec;
            Host_city := rec_Host_city rec;
            Country_Name := "United States of America";
            Country_Code := rec_Country_Code rec;
            Gold := rec_Gold rec;
            Silver := rec_Silver rec;
            Bronze := rec_Bronze rec;
            Total_Medals := rec_Gold rec + rec_Silver rec + rec_Bronze rec |}
         (df g)).
Proof.
  intros H. apply startup_running in H.
  destruct H as (columns & records & -> & _ & Hdf & _). rewrite Hdf. split.
  - apply Forall_forall. intros r Hr. apply make_df_In in Hr.
    destruct Hr as (rec & _ & Hy & ->). simpl.
    unfold in_years in Hy. simpl in Hy.
    apply andb_true_iff in Hy. rewrite !Z.leb_le in Hy.
    split; [lia|]. split; [reflexivity|].
    unfold replace_value.
    destruct (String.eqb (rec_Country_Name rec) "United States") eqn:E.
    + discriminate.
    + apply String.eqb_neq, E.
  - intros columns' records' rec E Hin Hname Hyear.
    inversion E; subst columns' records'.
    apply make_df_In. exists rec. split; [exact Hin|].
    unfold in_years, add_Total_Medals, correct_country_name; simpl.
    rewrite Hname. simpl. split; [|reflexivity].
    apply andb_true_iff. rewrite !Z.leb_le. lia.
Qed.

Lemma missing_cols_In (columns : list string) (c : string) :
  In c (missing_cols columns) <->
  In c expected_cols_from_user /\ ~ In c columns.
Proof.
  unfold missing_cols. rewrite filter_In, negb_true_iff.
  split; intros [H1 H2]; split; auto.
  - intro H. apply str_in_In in H. congruence.
  - destruct (str_in c columns) eqn:E; auto.
    apply str_in_In in E. contradiction.
Qed.

(** C8. When the CSV was fetched and parsed but its header lacks some of
    the eight expected columns, start-up ends in [exit()] after printing a
    line that lists the missing columns -- exactly the expected columns
    absent from the header, each once -- followed by the available ones.
    When reading raised, start-up ends in [exit()] as well: the text of
    the exception is printed after 'Error loading CSV: ', and a
    [FileNotFoundError] is reported by the not-found message. *)
Theorem load_failure_exits (columns : list string)
        (records : list MedalRecord) :
  (exists c, In c expected_cols_from_user /\ ~ In c columns) ->
  startup (ReadOk columns records) =
    Exited
      [("Error: The CSV file is missing the following expected columns: "
          ++ String.concat ", " (missing_cols columns))%string;
       ("Available columns are: " ++ String.concat ", " columns)%string] /\
  NoDup (missing_cols columns) /\
  (forall c, In c (missing_cols columns) <->
             In c expected_cols_from_user /\ ~ In c columns) /\
  (forall msg, startup (ReadRaises (OtherException msg)) =
               Exited [("Error loading CSV: " ++ msg)%string]) /\
  (forall msg, startup (ReadRaises (FileNotFoundError msg)) =
               Exited [not_found_message]).
Proof.
  intros (c & Hc & Hout).
  split; [|split; [|split; [|split]]]; try reflexivity.
  - simpl. destruct (missing_cols columns) as [|x rest] eqn:E; [|reflexivity].
    exfalso. assert (H : In c (missing_cols columns))
      by (apply missing_cols_In; auto).
    rewrite E in H. exact H.
  - unfold missing_cols. apply NoDup_filter.
    unfold expected_cols_from_user.
    repeat (constructor; [simpl; intuition discriminate|]). constructor.
  - apply missing_cols_In.
Qed.

(* ================================================================== *)
(** ** The globals are read-only *)

Lemma read_only_ret A (a : A) : read_only (ret a).
Proof. intro g; reflexivity. Qed.

Lemma read_only_raise A (e : PyExn) : read_only (@raise A e).
Proof. intro g; reflexivity. Qed.

Lemma read_only_global A (field : Globals -> A) : read_only (global field).
Proof. intro g; reflexivity. Qed.

Lemma read_only_bind A B (c : Callback A) (k : A -> Callback B) :
  read_only c -> (forall a, read_only (k a)) -> read_only (bind c k).
Proof.
  intros Hc Hk g. unfold bind. specialize (Hc g).
  destruct (c g) as [[a|e] g']; simpl in *; subst; [apply Hk | reflexivity].
Qed.

Lemma read_only_select_column (m : option Metric) :
  read_only (select_column m).
Proof. destruct m; [apply read_only_ret | apply read_only_raise]. Qed.

Lemma read_only_nlargest_checked K (frame : DataFrame) (message : string)
      (n : nat) (s : list (K * Z)) :
  read_only (nlargest_checked frame message n s).
Proof.
  unfold nlargest_checked.
  destruct (medal_dtype frame); [apply read_only_ret | apply read_only_raise].
Qed.

Create HintDb read_only.
#[local] Hint Resolve read_only_ret read_only_raise read_only_global
  read_only_select_column read_only_nlargest_checked : read_only.

Ltac read_only_step :=
  match goal with
  | |- read_only (bind _ _) => apply read_only_bind; [|intro]
  | |- read_only (if ?b then _ else _) => destruct b
  | |- read_only (match ?x with _ => _ end) => destruct x
  | |- read_only (let _ := _ in _) => cbv zeta
  | |- _ => solve [auto with read_only]
  end.

Lemma update_pie_chart_read_only (c : option string) :
  read_only (update_pie_chart c).
Proof. unfold update_pie_chart. repeat read_only_step. Qed.

Lemma update_map_chart_read_only (m : option Metric) :
  read_only (update_map_chart m).
Proof. unfold update_map_chart. repeat read_only_step. Qed.

Lemma update_area_chart_read_only (m : option Metric) :
  read_only (update_area_chart m).
Proof. unfold update_area_chart. repeat read_only_step. Qed.

Lemma update_bar_chart_read_only (m : option Metric) (y : option YearValue) :
  read_only (update_bar_chart m y).
Proof. unfold update_bar_chart. repeat read_only_step. Qed.

Lemma dispatch_read_only (ev : Event) (g : Globals) : dispatch ev g = g.
Proof.
  destruct ev; simpl.
  - apply update_pie_chart_read_only.
  - apply update_map_chart_read_only.
  - apply update_area_chart_read_only.
  - apply update_bar_chart_read_only.
Qed.

Lemma serve_read_only (evs : list Event) (g : Globals) : serve evs g = g.
Proof.
  unfold serve. induction evs as [|ev evs IH]; simpl; [reflexivity|].
  rewrite dispatch_read_only. exact IH.
Qed.

(** C9. The working table and the three option lists are built once, by
    start-up.  Every call of each of the four callbacks, whatever the
    selector values, leaves the globals as they were, so that after any
    sequence of callback firings the table is the one start-up built and
    the option lists are still the ones computed from it. *)
Theorem working_table_never_mutated (src : ReadCsv) (g : Globals)
        (evs : list Event) :
  startup src = Running g ->
  (forall c, snd (update_pie_chart c g) = g) /\
  (forall m, snd (update_map_chart m g) = g) /\
  (forall m, snd (update_area_chart m g) = g) /\
  (forall m y, snd (update_bar_chart m y g) = g) /\
  serve evs g = g /\
  df (serve evs g) = df g /\
  all_countries (serve evs g) = make_all_countries (df g) /\
  medal_types (serve evs g)
    = ["Gold"; "Silver"; "Bronze"; "Total_Medals"]%string /\
  year_options (serve evs g) = make_year_options (df g).
Proof.
  intros H. apply startup_running in H.
  destruct H as (columns & records & _ & _ & _ & Hall & Htypes & Hopts & _).
  split; [intro; apply update_pie_chart_read_only|].
  split; [intro; apply update_map_chart_read_only|].
  split; [intro; apply update_area_chart_read_only|].
  split; [intros; apply update_bar_chart_read_only|].
  rewrite serve_read_only. auto.
Qed.

(* ================================================================== *)
(** ** The country drop-down *)

Lemma str_le_refl (a : string) : str_le a a = true.
Proof. destruct (str_le_total a a); assumption. Qed.

(** C10. The values of the country drop-down are the distinct country
    names of the working table in ascending lexicographic order.  When the
    table has rows the initial value is the smallest name; when it has
    none the initial value is [None]. *)
Theorem country_dropdown_sorted (src : ReadCsv) (g : Globals) :
  startup src = Running g ->
  let values := map snd (country_dropdown_options g) in
  map fst (country_dropdown_options g) = values /\
  StronglySorted (fun a b => str_le a b = true) values /\
  NoDup values /\
  (forall c, In c values <-> In c (countries (df g))) /\
  (df g <> [] ->
   exists c0, country_dropdown_value g = Some c0 /\
              In c0 (countries (df g)) /\
              forall c, In c (countries (df g)) -> str_le c0 c = true) /\
  (df g = [] -> country_dropdown_value g = None).
Proof.
  intros H. apply startup_running in H.
  destruct H as (columns & records & _ & _ & _ & Hcountries & _).
  unfold country_dropdown_options, country_dropdown_value.
  rewrite Hcountries. cbv zeta. set (table := df g).
  rewrite !map_map. simpl. rewrite map_id.
  assert (Hsorted : StronglySorted (fun a b => str_le a b = true)
                                   (make_all_countries table))
    by (apply sort_by_sorted; [apply str_le_total | apply str_le_trans]).
  assert (Hin : forall c, In c (make_all_countries table) <->
                          In c (countries table)).
  { intro c. unfold make_all_countries. rewrite sort_by_In.
    apply unique_In, String.eqb_eq. }
  split; [reflexivity|]. split; [exact Hsorted|].
  split; [apply sort_by_NoDup, unique_NoDup, String.eqb_eq|].
  split; [exact Hin|]. split.
  - intros Hne. destruct (make_all_countries table) as [|c0 rest] eqn:E.
    + exfalso. destruct table as [|r table']; [congruence|].
      apply (proj2 (Hin (Country_Name r))). left; reflexivity.
    + exists c0. split; [reflexivity|].
      split; [apply Hin; left; reflexivity|].
      intros c Hc. apply Hin in Hc. destruct Hc as [->|Hc].
      * apply str_le_refl.
      * inversion Hsorted as [|? ? _ Hall]; subst.
        rewrite Forall_forall in Hall. apply Hall, Hc.
  - intros Hnil. rewrite Hnil. reflexivity.
Qed.

(* ================================================================== *)
(** ** Selections that match nothing *)

(** A year selection without rows -- a cleared drop-down or a year the
    table does not have -- gives an empty bar chart, the medal columns
    being int64. *)
Lemma bar_year_without_rows (m : Metric) (sel : option YearValue)
      (g : Globals) :
  medal_dtype (df_frame g) = int64 ->
  sel <> Some YAll ->
  (forall y, sel = Some (YInt y) -> ~ In y (map Year (df g))) ->
  exists fig, update_bar_chart (Some m) sel g = (Return fig, g) /\
              data fig = [].
Proof.
  intros Hnum Hsel Hmiss.
  assert (Hrows : selected_rows sel (df g) = []).
  { unfold selected_rows.
    destruct sel as [[|y]|]; [congruence| |]; simpl.
    - destruct (filter (fun r => Year r =? y) (df g)) as [|r rows] eqn:E;
        [reflexivity|].
      assert (H : In r (filter (fun r => Year r =? y) (df g)))
        by (rewrite E; left; reflexivity).
      apply filter_In in H. destruct H as [Hr Hy].
      apply Z.eqb_eq in Hy. exfalso. apply (Hmiss y eq_refl).
      rewrite <- Hy. apply in_map, Hr.
    - generalize (df g). intros l. induction l; simpl; auto. }
  destruct (bar_returns m sel g Hnum) as (fig & Efig & Hdata).
  exists fig. split; [exact Efig|].
  rewrite Hdata, bar_rows_eq, Hrows. reflexivity.
Qed.

(** C5. With the medal drop-down cleared the map, area and bar callbacks
    raise [KeyError] instead of returning a placeholder figure. *)
Theorem cleared_medal_type_raises (g : Globals) (y : option YearValue) :
  update_map_chart None g = (Raise (KeyError "Column not found: None"), g) /\
  update_area_chart None g = (Raise (KeyError "Column not found: None"), g) /\
  update_bar_chart None y g = (Raise (KeyError "Column not found: None"), g).
Proof.
  split; [reflexivity|]. split; [reflexivity|].
  destruct y as [[|v]|]; reflexivity.
Qed.

(* ================================================================== *)
(** ** The small table, evaluated *)

Example sample_startup : startup sample_read = Running sample_globals.
Proof. reflexivity. Qed.

Example sample_all_countries :
  all_countries sample_globals =
    ["Australia"; "China"; "France"; "Germany"; "Great Britain"; "Hungary";
     "Italy"; "Japan"; "Russia"; "South Korea";
     "United States of America"]%string.
Proof. reflexivity. Qed.

Example sample_year_options :
  year_options sample_globals =
    [ {| label := "All Years (1992-2020)"; value := YAll |};
      {| label := "2012 - London, United Kingdom"; value := YInt 2012 |};
      {| label := "2016 - Rio de Janeiro, Brazil"; value := YInt 2016 |} ].
Proof. reflexivity. Qed.

(** Eleven countries: Australia, with the fewest gold medals, is left
    out; countries with equal sums keep the order of the grouping. *)
Example sample_bar_gold_all :
  option_map (@data _)
             (match fst (update_bar_chart (Some MGold) (Some YAll)
                                          sample_globals) with
              | Return fig => Some fig
              | Raise _ => None
              end)
  = Some [("United States of America", 92); ("China", 64);
          ("Great Britain", 29); ("Russia", 24); ("Japan", 19);
          ("South Korea", 13); ("France", 11); ("Germany", 11);
          ("Hungary", 8); ("Italy", 8)]%string.
Proof. vm_compute. reflexivity. Qed.

(* ================================================================== *)
(** ** The theorems at the small table *)

Lemma pie_three_pairs_witness :
  In "China"%string (countries (df sample_globals)) /\
  "China"%string <> ""%string /\
  exists fig gold silver bronze,
    update_pie_chart (Some "China"%string) sample_globals
      = (Return fig, sample_globals) /\
    data fig = [("Gold"%string, gold); ("Silver"%string, silver);
                ("Bronze"%string, bronze)] /\
    gold + silver + bronze =
      sum_Z (map (fun r => Gold r + Silver r + Bronze r)
                 (filter (fun r => String.eqb (Country_Name r) "China")
                         (df sample_globals))).
Proof.
  assert (H1 : In "China"%string (countries (df sample_globals)))
    by (simpl; auto 20).
  assert (H2 : "China"%string <> ""%string) by discriminate.
  exact (conj H1 (conj H2 (@pie_three_pairs sample_globals "China" H1 H2))).
Defined.

Lemma pie_placeholder_witness :
  ~ In "Atlantis"%string (countries (df sample_globals)) /\
  update_pie_chart (Some "Atlantis"%string) sample_globals =
    (Return {| kind := Pie;
               title := "No data for Atlantis (1992-2020)";
               data := [];
               annotations := ["No data available"%string];
               color_discrete_map := []; marker_color := None |},
     sample_globals).
Proof.
  assert (H : ~ In "Atlantis"%string (countries (df sample_globals)))
    by (simpl; intuition discriminate).
  exact (conj H (proj2 (@pie_placeholder sample_globals "Atlantis" H))).
Defined.

Lemma working_table_rows_witness :
  startup sample_read = Running sample_globals /\
  Forall (fun r => 1992 <= Year r <= 2020 /\
                   Total_Medals r = Gold r + Silver r + Bronze r /\
                   Country_Name r <> "United States"%string)
         (df sample_globals).
Proof.
  assert (H : startup sample_read = Running sample_globals) by reflexivity.
  exact (conj H (proj1 (@working_table_rows sample_read sample_globals H))).
Defined.

Lemma load_failure_exits_witness :
  (exists c, In c expected_cols_from_user /\
             ~ In c ["Year"; "Gold"; "Medals"]%string) /\
  startup (ReadOk ["Year"; "Gold"; "Medals"]%string sample_records) =
    Exited
      ["Error: The CSV file is missing the following expected columns: Host_country, Host_city, Country_Name, Country_Code, Silver, Bronze"%string;
       "Available columns are: Year, Gold, Medals"%string].
Proof.
  assert (H : exists c, In c expected_cols_from_user /\
                        ~ In c ["Year"; "Gold"; "Medals"]%string).
  { exists "Silver"%string. split; [simpl; auto 20|].
    simpl; intuition discriminate. }
  exact (conj H (proj1 (@load_failure_exits ["Year"; "Gold"; "Medals"]%string sample_records H))).
Defined.

Lemma working_table_never_mutated_witness :
  startup sample_read = Running sample_globals /\
  serve [PieInput None; MapInput None; AreaInput (Some MSilver);
         BarInput (Some MGold) (Some (YInt 2012))] sample_globals
    = sample_globals.
Proof.
  assert (H : startup sample_read = Running sample_globals) by reflexivity.
  exact (conj H
           (proj1 (proj2 (proj2 (proj2 (proj2
              (@working_table_never_mutated sample_read sample_globals
                 [PieInput None; MapInput None; AreaInput (Some MSilver);
                  BarInput (Some MGold) (Some (YInt 2012))] H))))))).
Defined.

Lemma country_dropdown_sorted_witness :
  startup sample_read = Running sample_globals /\
  (df sample_globals <> [] ->
   exists c0, country_dropdown_value sample_globals = Some c0 /\
              In c0 (countries (df sample_globals)) /\
              forall c, In c (countries (df sample_globals)) ->
                        str_le c0 c = true).
Proof.
  assert (H : startup sample_read = Running sample_globals) by reflexivity.
  exact (conj H
           (proj1 (proj2 (proj2 (proj2 (proj2
              (@country_dropdown_sorted sample_read sample_globals H))))))).
Defined.

(* ================================================================== *)
(** * Further properties of the script *)

(** ** Start-up *)

Lemma missing_cols_nil (columns : list string) :
  missing_cols columns = [] <->
  (forall c, In c expected_cols_from_user -> In c columns).
Proof.
  split.
  - intros E c Hc. destruct (str_in c columns) eqn:F.
    + apply str_in_In, F.
    + exfalso. assert (H : In c (missing_cols columns)).
      { apply missing_cols_In. split; [exact Hc|].
        intro H. apply str_in_In in H. congruence. }
      rewrite E in H. exact H.
  - intros Hall. destruct (missing_cols columns) as [|c rest] eqn:E;
      [reflexivity|].
    assert (H : In c (missing_cols columns)) by (rewrite E; left; reflexivity).
    apply missing_cols_In in H. destruct H as [Hc Hout].
    exfalso. apply Hout, Hall, Hc.
Qed.

(** X1. Start-up goes on to serve only when [read_csv] returned a frame
    whose header has all eight expected columns.  The globals are then
    built from the lines: the table by the rename, the year filter and
    the derived column, with object dtype exactly when there is no line;
    the country list and the year options from the table; the four medal
    types. *)
Theorem startup_runs_only_with_columns (src : ReadCsv) (g : Globals) :
  startup src = Running g ->
  exists columns records,
    src = ReadOk columns records /\
    (forall c, In c expected_cols_from_user -> In c columns) /\
    df g = make_df records /\
    (medal_dtype (df_frame g) = object <-> records = []) /\
    all_countries g = make_all_countries (df g) /\
    medal_types g = ["Gold"; "Silver"; "Bronze"; "Total_Medals"]%string /\
    year_options g = make_year_options (df g).
Proof.
  intros H. apply startup_running in H.
  destruct H as (columns & records & E & Hmiss & Hdf & Hall & Htypes
                 & Hopts & Hframe).
  exists columns, records. split; [exact E|].
  split; [apply missing_cols_nil, Hmiss|]. split; [exact Hdf|].
  split; [|auto]. rewrite Hframe.
  destruct records; simpl; split; intros; congruence.
Qed.

Lemma in_years_correct (rec : MedalRecord) :
  in_years (correct_country_name rec) = in_years rec.
Proof. reflexivity. Qed.

(** X2. The table has one row for each source line whose year is between
    1992 and 2020, in the order of the source; year, host, country code
    and medal counts are copied unchanged, and the name is changed only
    when it is 'United States'. *)
Theorem make_df_keeps_lines (records : list MedalRecord) :
  map copied_of_row (make_df records)
    = map copied_of_line (filter in_years records) /\
  map Country_Name (make_df records)
    = map (fun rec =>
             if String.eqb (rec_Country_Name rec) "United States"
             then "United States of America"%string
             else rec_Country_Name rec)
          (filter in_years records).
Proof.
  unfold make_df.
  induction records as [|rec records [IH1 IH2]]; simpl; [split; reflexivity|].
  rewrite in_years_correct.
  destruct (in_years rec); simpl; [|split; assumption].
  rewrite IH1, IH2. split; reflexivity.
Qed.

(** ** The year options *)

Lemma host_eqb_spec (a b : Z * string * string) :
  host_eqb a b = true <-> a = b.
Proof.
  destruct a as [[y1 c1] k1], b as [[y2 c2] k2]. unfold host_eqb.
  rewrite !andb_true_iff, Z.eqb_eq, !String.eqb_eq.
  split; [intros [[-> ->] ->]; reflexivity | intros E; inversion E; auto].
Qed.

Lemma year_host_info_In (table : list Row) (t : Z * string * string) :
  In t (year_host_info table) <->
  exists r, In r table /\ t = (Year r, Host_city r, Host_country r).
Proof.
  unfold year_host_info. rewrite sort_by_In.
  rewrite (unique_In host_eqb host_eqb_spec), in_map_iff.
  split; intros (r & H1 & H2); exists r; auto.
Qed.

Lemma year_option_of_row (r : Row) :
  year_option_of (Year r, Host_city r, Host_country r)
  = {| label := year_label r; value := YInt (Year r) |}.
Proof. reflexivity. Qed.

Lemma StronglySorted_map A B (f : A -> B) (R : A -> A -> Prop)
      (S : B -> B -> Prop) (l : list A) :
  (forall a b, R a b -> S (f a) (f b)) ->
  StronglySorted R l -> StronglySorted S (map f l).
Proof.
  intros HRS. induction 1 as [|a l Hs IH Hall]; simpl; constructor; auto.
  apply Forall_map. eapply Forall_impl; [|exact Hall].
  intros b; apply HRS.
Qed.

Lemma year_host_info_sorted (table : list Row) :
  StronglySorted Z.le (map (fun t => fst (fst t)) (year_host_info table)).
Proof.
  unfold year_host_info.
  eapply StronglySorted_map;
    [|apply sort_by_sorted
        with (le := fun a b : Z * string * string =>
                      fst (fst a) <=? fst (fst b))].
  - intros a b H. apply Z.leb_le, H.
  - intros a b. rewrite !Z.leb_le. lia.
  - intros a b c. rewrite !Z.leb_le. lia.
Qed.

Lemma make_df_years (records : list MedalRecord) (r : Row) :
  In r (make_df records) -> 1992 <= Year r <= 2020.
Proof.
  intros H. apply make_df_In in H. destruct H as (rec & _ & Hy & ->).
  unfold in_years in Hy. simpl in *.
  apply andb_true_iff in Hy. rewrite !Z.leb_le in Hy. lia.
Qed.

(** X3. The year options start with 'All Years (1992-2020)' and go on in
    ascending order of year with exactly one option for each distinct
    (year, host city, host country) of the table, labelled
    '<year> - <city>, <country>' and valued by the year; every offered
    year lies between 1992 and 2020. *)
Theorem year_options_cover_years (src : ReadCsv) (g : Globals) :
  startup src = Running g ->
  exists hosts : list (Z * string * string),
    year_options g
      = {| label := "All Years (1992-2020)"; value := YAll |}
          :: map (fun t =>
                    {| label := (str_of_int (fst (fst t)) ++ " - "
                                   ++ snd (fst t) ++ ", " ++ snd t)%string;
                       value := YInt (fst (fst t)) |}) hosts /\
    NoDup hosts /\
    (forall y city country,
        In (y, city, country) hosts <->
        exists r, In r (df g) /\ Year r = y /\ Host_city r = city /\
                  Host_country r = country) /\
    StronglySorted Z.le (map (fun t => fst (fst t)) hosts) /\
    Forall (fun t => 1992 <= fst (fst t) <= 2020) hosts.
Proof.
  intros H. apply startup_running in H.
  destruct H as (columns & records & _ & _ & Hdf & _ & _ & Hopts & _).
  exists (year_host_info (df g)). rewrite Hopts.
  split; [|split; [|split; [|split]]].
  - unfold make_year_options. f_equal. apply map_ext.
    intros [[y city] country]. reflexivity.
  - unfold year_host_info. apply sort_by_NoDup, unique_NoDup, host_eqb_spec.
  - intros y city country. rewrite year_host_info_In. split.
    + intros (r & Hr & E). inversion E. exists r. auto.
    + intros (r & Hr & <- & <- & <-). exists r. auto.
  - apply year_host_info_sorted.
  - apply Forall_forall. intros t Ht. apply year_host_info_In in Ht.
    destruct Ht as (r & Hr & ->). simpl. rewrite Hdf in Hr.
    eapply make_df_years; eauto.
Qed.

Lemma find_no_selection (options : list YearOption) :
  find (option_matches None) options = None.
Proof. induction options as [|o options IH]; simpl; auto. Qed.

Lemma find_year_option (table : list Row) (y : Z) :
  (In y (map Year table) ->
   exists r, In r table /\ Year r = y /\
             find (option_matches (Some (YInt y))) (make_year_options table)
             = Some {| label := year_label r; value := YInt y |}) /\
  (~ In y (map Year table) ->
   find (option_matches (Some (YInt y))) (make_year_options table) = None).
Proof.
  unfold make_year_options. simpl.
  destruct (find (option_matches (Some (YInt y)))
                 (map year_option_of (year_host_info table))) as [o|] eqn:E.
  - apply find_some in E. destruct E as [Hin Hm].
    apply in_map_iff in Hin. destruct Hin as (t & <- & Ht).
    apply year_host_info_In in Ht. destruct Ht as (r & Hr & ->).
    rewrite year_option_of_row in *. simpl in Hm. apply Z.eqb_eq in Hm.
    split.
    + intros _. exists r. rewrite Hm. auto.
    + intros Hout. exfalso. apply Hout. rewrite <- Hm. apply in_map, Hr.
  - split; [|reflexivity].
    intros Hy. exfalso. apply in_map_iff in Hy. destruct Hy as (r & Ey & Hr).
    assert (Hopt : In (year_option_of (Year r, Host_city r, Host_country r))
                      (map year_option_of (year_host_info table))).
    { apply in_map. apply year_host_info_In. exists r; auto. }
    apply (find_none _ _ E) in Hopt.
    unfold option_matches, year_option_of in Hopt. simpl in Hopt.
    rewrite Ey, Z.eqb_refl in Hopt. discriminate.
Qed.

(** X4. When the CSV had at least one line, the title of the bar chart
    ends with 'All Years (1992-2020)' for the selection 'All', with the
    label '<year> - <city>, <country>' of a row of that year when the
    selected year is in the table, with the bare year when it is not,
    and with 'None' when the year drop-down is cleared. *)
Theorem bar_title_for_year (src : ReadCsv) (g : Globals) (m : Metric) :
  startup src = Running g ->
  medal_dtype (df_frame g) = int64 ->
  let titled (sel : option YearValue) (segment : string) :=
    figure_title (update_bar_chart (Some m) sel g)
    = Some ("Top 10 Countries by " ++ medal_label (Some m)
              ++ " in " ++ segment)%string in
  titled (Some YAll) "All Years (1992-2020)"%string /\
  titled None "None"%string /\
  (forall y, In y (map Year (df g)) ->
             exists r, In r (df g) /\ Year r = y /\
                       titled (Some (YInt y)) (year_label r)) /\
  (forall y, ~ In y (map Year (df g)) ->
             titled (Some (YInt y)) (str_of_int y)).
Proof.
  intros H Hnum. apply startup_running in H.
  destruct H as (columns & records & _ & _ & _ & _ & _ & Hopts & _).
  cbv zeta. set (table := df g) in *.
  split.
  { unfold figure_title, update_bar_chart, bind, global, ret,
      nlargest_checked. simpl. rewrite Hnum. reflexivity. }
  assert (T : forall sel,
             is_All sel = false ->
             figure_title (update_bar_chart (Some m) sel g)
             = Some ("Top 10 Countries by " ++ medal_label (Some m) ++ " in "
                       ++ match find (option_matches sel)
                                     (make_year_options table) with
                          | Some item => label item
                          | None => str_of_year_value sel
                          end)%string).
  { intros sel Hsel.
    match goal with |- _ = ?r => set (expected := r) end.
    unfold figure_title, update_bar_chart, bind, global, ret,
      nlargest_checked.
    rewrite Hsel. simpl. rewrite Hopts, Hnum. subst expected.
    destruct (find (option_matches sel) (make_year_options table));
      reflexivity. }
  split; [|split].
  - rewrite T by reflexivity.
    rewrite (find_no_selection (make_year_options table)). reflexivity.
  - intros y Hy. destruct (find_year_option table y) as [Hfound _].
    destruct (Hfound Hy) as (r & Hr & Ey & F).
    exists r. split; [exact Hr|]. split; [exact Ey|].
    rewrite T by reflexivity. rewrite F. reflexivity.
  - intros y Hy. destruct (find_year_option table y) as [_ Hnone].
    rewrite T by reflexivity. rewrite (Hnone Hy). reflexivity.
Qed.

(** ** Bar chart: empty selections *)

Lemma unique_nil A (eqb : A -> A -> bool) (l : list A) :
  (forall a b, eqb a b = true <-> a = b) ->
  (unique eqb l = [] <-> l = []).
Proof.
  intros Hspec. split; [|intros ->; reflexivity].
  destruct l as [|x l]; [reflexivity|]. intros E.
  assert (H : In x (unique eqb (x :: l)))
    by (apply unique_In; [exact Hspec | left; reflexivity]).
  rewrite E in H. contradiction.
Qed.

Lemma top10_nil (col : Row -> Z) (table : list Row) :
  nlargest 10 (groupby_sum String.eqb str_le Country_Name col table) = []
  <-> table = [].
Proof.
  destruct (nlargest_top10 col table) as (_ & _ & _ & Hlen & _).
  split.
  - intros E. rewrite E in Hlen. simpl in Hlen.
    destruct (unique String.eqb (countries table)) as [|c cs] eqn:U.
    + apply (proj1 (@unique_nil _ String.eqb (countries table)
                                String.eqb_eq)) in U.
      unfold countries in U. apply map_eq_nil in U. exact U.
    + simpl in Hlen. discriminate.
  - intros ->. reflexivity.
Qed.

Lemma filter_year_nil (table : list Row) (y : Z) :
  filter (fun r => Year r =? y) table = [] <-> ~ In y (map Year table).
Proof.
  split.
  - intros E Hy. apply in_map_iff in Hy. destruct Hy as (r & Ey & Hr).
    assert (H : In r (filter (fun r => Year r =? y) table))
      by (apply filter_In; split; [exact Hr | apply Z.eqb_eq, Ey]).
    rewrite E in H. exact H.
  - intros Hout.
    destruct (filter (fun r => Year r =? y) table) as [|r rows] eqn:E;
      [reflexivity|].
    assert (H : In r (filter (fun r => Year r =? y) table))
      by (rewrite E; left; reflexivity).
    apply filter_In in H. destruct H as [Hr Hy]. apply Z.eqb_eq in Hy.
    exfalso. apply Hout. rewrite <- Hy. apply in_map, Hr.
Qed.

(** X5. The bar chart has no bar exactly when no row is selected: for
    'All' when the table is empty, for a year when the table has no row
    of that year, and always when the year drop-down is cleared. *)
Theorem bar_empty_iff_no_rows (m : Metric) (g : Globals) :
  (figure_data (update_bar_chart (Some m) (Some YAll) g) = []
   <-> df g = []) /\
  figure_data (update_bar_chart (Some m) None g) = [] /\
  (forall y, figure_data (update_bar_chart (Some m) (Some (YInt y)) g) = []
             <-> ~ In y (map Year (df g))).
Proof.
  split; [|split].
  - rewrite bar_rows_eq. apply top10_nil.
  - rewrite bar_rows_eq. apply top10_nil.
    unfold selected_rows. simpl.
    generalize (df g). intros l. induction l; simpl; auto.
  - intros y. rewrite bar_rows_eq, <- filter_year_nil. apply top10_nil.
Qed.

(** ** Which calls raise *)

(** X6. The pie callback returns a figure for every selection, and the
    map callback whenever a medal type is selected.  With a medal type
    selected the area and bar callbacks return a figure for every year
    selection when the medal columns are int64, and raise [TypeError]
    when they are object, that is on the frame of a CSV without lines.
    None of the calls changes the globals. *)
Theorem which_calls_raise (g : Globals) :
  (forall c, exists fig, update_pie_chart c g = (Return fig, g)) /\
  (forall m, exists fig, update_map_chart (Some m) g = (Return fig, g)) /\
  match medal_dtype (df_frame g) with
  | int64 =>
      (forall m, exists fig, update_area_chart (Some m) g = (Return fig, g)) /\
      (forall m y, exists fig,
            update_bar_chart (Some m) y g = (Return fig, g))
  | object =>
      (forall m, update_area_chart (Some m) g
                 = (Raise (TypeError series_nlargest_error), g)) /\
      (forall m y, update_bar_chart (Some m) y g
                   = (Raise (TypeError (frame_nlargest_error (metric_name m))),
                      g))
  end.
Proof.
  split; [|split].
  - intros c. unfold update_pie_chart.
    destruct (falsy c); [eexists; reflexivity|].
    unfold bind, global.
    match goal with |- context [filter ?f (df g)] =>
      destruct (filter f (df g)) end; eexists; reflexivity.
  - intros m. eexists; reflexivity.
  - destruct (medal_dtype (df_frame g)) eqn:Hdtype; split.
    + intros m. destruct (area_returns m g Hdtype) as (fig & E & _).
      exists fig; exact E.
    + intros m y. destruct (bar_returns m y g Hdtype) as (fig & E & _).
      exists fig; exact E.
    + intros m. apply area_raises, Hdtype.
    + intros m y. apply bar_raises, Hdtype.
Qed.

(** ** Consistency between the charts *)

(** X7. The rows of the map chart are in the order of the country
    drop-down: their countries are the list [all_countries]. *)
Theorem map_rows_follow_dropdown (src : ReadCsv) (g : Globals) (m : Metric) :
  startup src = Running g ->
  map fst (figure_data (update_map_chart (Some m) g)) = all_countries g.
Proof.
  intros H. apply startup_running in H.
  destruct H as (columns & records & _ & _ & _ & Hall & _).
  rewrite Hall. unfold figure_data. simpl. apply groupby_keys.
Qed.

Lemma make_df_total (records : list MedalRecord) (r : Row) :
  In r (make_df records) -> Total_Medals r = Gold r + Silver r + Bronze r.
Proof.
  intros H. apply make_df_In in H. destruct H as (rec & _ & _ & ->).
  reflexivity.
Qed.

Lemma country_total_Total_Medals (table : list Row) (c : string) :
  (forall r, In r table -> Total_Medals r = Gold r + Silver r + Bronze r) ->
  country_total Total_Medals table c
  = country_total Gold table c + country_total Silver table c
    + country_total Bronze table c.
Proof.
  intros Hinv. unfold country_total. rewrite sum_Z_add3. f_equal.
  apply map_ext_in. intros r Hr. apply filter_In in Hr. apply Hinv, Hr.
Qed.

Lemma map_rows_In (m : Metric) (g : Globals) (c : string) (v : Z) :
  In (c, v) (figure_data (update_map_chart (Some m) g)) <->
  In c (countries (df g)) /\ v = country_total (metric_col m) (df g) c.
Proof. apply (groupby_In String.eqb str_le String.eqb_eq). Qed.

(** X8. In the map chart of Total_Medals the value of a country is the
    sum of its values in the map charts of Gold, Silver and Bronze. *)
Theorem map_total_is_sum_of_medals (src : ReadCsv) (g : Globals)
        (c : string) (total : Z) :
  startup src = Running g ->
  In (c, total) (figure_data (update_map_chart (Some MTotal_Medals) g)) ->
  exists gold silver bronze,
    In (c, gold) (figure_data (update_map_chart (Some MGold) g)) /\
    In (c, silver) (figure_data (update_map_chart (Some MSilver) g)) /\
    In (c, bronze) (figure_data (update_map_chart (Some MBronze) g)) /\
    total = gold + silver + bronze.
Proof.
  intros H Hin. apply startup_running in H.
  destruct H as (columns & records & _ & _ & Hdf & _).
  apply map_rows_In in Hin. destruct Hin as [Hc ->].
  exists (country_total Gold (df g) c), (country_total Silver (df g) c),
         (country_total Bronze (df g) c).
  rewrite !map_rows_In. repeat split; auto.
  apply country_total_Total_Medals. rewrite Hdf.
  intros r. apply make_df_total.
Qed.

(** X9. For a country of the table the three values of the pie chart are
    the country's values in the map charts of Gold, Silver and Bronze,
    and their sum is its value in the map chart of Total_Medals. *)
Theorem pie_values_match_map (src : ReadCsv) (g : Globals) (C : string) :
  startup src = Running g ->
  In C (countries (df g)) ->
  C <> ""%string ->
  exists gold silver bronze,
    figure_data (update_pie_chart (Some C) g)
      = [("Gold"%string, gold); ("Silver"%string, silver);
         ("Bronze"%string, bronze)] /\
    In (C, gold) (figure_data (update_map_chart (Some MGold) g)) /\
    In (C, silver) (figure_data (update_map_chart (Some MSilver) g)) /\
    In (C, bronze) (figure_data (update_map_chart (Some MBronze) g)) /\
    In (C, gold + silver + bronze)
       (figure_data (update_map_chart (Some MTotal_Medals) g)).
Proof.
  intros H Hin Hne. apply startup_running in H.
  destruct H as (columns & records & _ & _ & Hdf & _).
  exists (country_total Gold (df g) C), (country_total Silver (df g) C),
         (country_total Bronze (df g) C).
  rewrite !map_rows_In. split; [|repeat split; auto].
  - unfold figure_data, update_pie_chart, falsy.
    apply String.eqb_neq in Hne. rewrite Hne.
    unfold bind, global, country_total.
    pose proof (@rows_of_present_country _ _ Hin) as Hrows.
    destruct (filter (fun r => String.eqb (Country_Name r) C) (df g))
      as [|r rows] eqn:E; [congruence|]. reflexivity.
  - symmetry. apply country_total_Total_Medals. rewrite Hdf.
    intros r. apply make_df_total.
Qed.

(** ** Area chart and bar chart *)

Lemma bar_rows_In (m : Metric) (g : Globals) (c : string) (v : Z) :
  In (c, v) (figure_data (update_bar_chart (Some m) (Some YAll) g)) ->
  In c (countries (df g)) /\ v = country_total (metric_col m) (df g) c.
Proof.
  rewrite bar_rows_eq.
  destruct (nlargest_top10 (metric_col m) (df g)) as (_ & Hrows & _).
  apply Hrows.
Qed.

Lemma area_rows_In (m : Metric) (g : Globals) (c : string) (y v : Z) :
  In (c, y, v) (figure_data (update_area_chart (Some m) g)) <->
  In c (map fst (figure_data (update_bar_chart (Some m) (Some YAll) g))) /\
  (exists r, In r (df g) /\ Country_Name r = c /\ Year r = y) /\
  v = country_year_total (metric_col m) (df g) c y.
Proof.
  rewrite area_rows_eq, bar_rows_eq.
  change (selected_rows (Some YAll) (df g)) with (df g).
  rewrite filter_In. simpl. rewrite str_in_In.
  rewrite (groupby_In key2_eqb key2_le key2_eqb_spec).
  rewrite in_map_iff. unfold country_year_total. split.
  - intros [[(r & E & Hr) Hv] Hc]. inversion E; subst c y.
    split; [exact Hc|]. split; [|exact Hv]. exists r; auto.
  - intros (Hc & (r & Hr & Ec & Ey) & Hv). subst c y.
    split; [split; [|exact Hv]|exact Hc]. exists r; auto.
Qed.

(** X11. The countries of the area chart are the countries of the bar
    chart for the same medal type and the selection 'All'. *)
Theorem area_countries_are_bar_countries (m : Metric) (g : Globals)
        (c : string) :
  In c (area_countries (figure_data (update_area_chart (Some m) g))) <->
  In c (map fst (figure_data (update_bar_chart (Some m) (Some YAll) g))).
Proof.
  unfold area_countries.
  rewrite (unique_In String.eqb String.eqb_eq), in_map_iff. split.
  - intros ([[c0 y] v] & E & Hin). simpl in E; subst c0.
    apply area_rows_In in Hin. tauto.
  - intros Hc. pose proof Hc as Hc0.
    apply in_map_iff in Hc0. destruct Hc0 as ([c0 v] & E & Hin).
    simpl in E; subst c0. apply bar_rows_In in Hin. destruct Hin as [Hin _].
    unfold countries in Hin. apply in_map_iff in Hin.
    destruct Hin as (r & Er & Hr).
    exists (c, Year r, country_year_total (metric_col m) (df g) c (Year r)).
    split; [reflexivity|]. apply area_rows_In. split; [exact Hc|].
    split; [|reflexivity]. exists r; auto.
Qed.

Lemma sum_Z_app (l1 l2 : list Z) : sum_Z (l1 ++ l2) = sum_Z l1 + sum_Z l2.
Proof. induction l1 as [|x l1 IH]; simpl; lia. Qed.

Lemma sum_Z_pointwise_add A (f h : A -> Z) (l : list A) :
  sum_Z (map (fun x => f x + h x) l) = sum_Z (map f l) + sum_Z (map h l).
Proof. induction l as [|x l IH]; simpl; lia. Qed.

(** A value counted at one key of a duplicate-free list is counted once. *)
Lemma sum_Z_at_key (a k : Z) (ks : list Z) :
  NoDup ks ->
  sum_Z (map (fun y => if k =? y then a else 0) ks)
  = if existsb (Z.eqb k) ks then a else 0.
Proof.
  induction 1 as [|y ks Hy Hnd IH]; simpl; [reflexivity|].
  rewrite IH. destruct (k =? y) eqn:E; simpl; [|lia].
  apply Z.eqb_eq in E. subst y.
  destruct (existsb (Z.eqb k) ks) eqn:F; [|lia].
  exfalso. apply Hy. apply existsb_exists in F.
  destruct F as (z & Hz & Ez). apply Z.eqb_eq in Ez. subst z. exact Hz.
Qed.

(** Summing the group sums over duplicate-free keys that cover the rows
    gives the sum over all rows. *)
Lemma sum_Z_by_key (f k : Row -> Z) (rows : list Row) (ks : list Z) :
  NoDup ks ->
  (forall r, In r rows -> In (k r) ks) ->
  sum_Z (map (fun y => sum_Z (map f (filter (fun r => k r =? y) rows))) ks)
  = sum_Z (map f rows).
Proof.
  intros Hnd. induction rows as [|r rows IH]; intros Hcover.
  - simpl. clear. induction ks as [|y ks IHks]; simpl; auto.
  - simpl.
    rewrite (map_ext
               (fun y => sum_Z (map f (if k r =? y
                                       then r :: filter (fun r0 => k r0 =? y) rows
                                       else filter (fun r0 => k r0 =? y) rows)))
               (fun y => (if k r =? y then f r else 0)
                         + sum_Z (map f (filter (fun r0 => k r0 =? y) rows)))).
    + rewrite sum_Z_pointwise_add, IH by (intros; apply Hcover; right; auto).
      rewrite sum_Z_at_key by exact Hnd.
      assert (E : existsb (Z.eqb (k r)) ks = true).
      { apply existsb_exists. exists (k r). split; [|apply Z.eqb_refl].
        apply Hcover. left; reflexivity. }
      rewrite E. reflexivity.
    + intros y. destruct (k r =? y); simpl; lia.
Qed.

Lemma filter_filter A (p q : A -> bool) (l : list A) :
  filter q (filter p l) = filter (fun x => p x && q x) l.
Proof.
  induction l as [|x l IH]; simpl; [reflexivity|].
  destruct (p x); simpl; [destruct (q x); simpl; congruence | exact IH].
Qed.

Lemma filter_implied A (p q : A -> bool) (l : list A) :
  (forall x, In x l -> q x = true -> p x = true) ->
  filter q (filter p l) = filter q l.
Proof.
  intros Himp. rewrite filter_filter. apply filter_ext_in.
  intros x Hx. destruct (q x) eqn:Q.
  - rewrite (Himp x Hx Q). reflexivity.
  - apply andb_false_r.
Qed.

Lemma country_year_total_nested (col : Row -> Z) (table : list Row)
      (c : string) (y : Z) :
  country_year_total col table c y
  = sum_Z (map col
               (filter (fun r => Year r =? y)
                       (filter (fun r => String.eqb (Country_Name r) c)
                               table))).
Proof.
  unfold country_year_total. rewrite filter_filter. reflexivity.
Qed.

Lemma area_keys_NoDup (m : Metric) (g : Globals) :
  NoDup (map fst (figure_data (update_area_chart (Some m) g))).
Proof.
  rewrite area_rows_eq. apply filter_keeps_distinct_keys.
  apply (groupby_keys_NoDup key2_eqb key2_le key2_eqb_spec).
Qed.

(** X10. For every country of the bar chart with the selection 'All',
    the values of its rows in the area chart of the same medal type, one
    per year, add up to its value in the bar chart. *)
Theorem area_years_add_up (m : Metric) (g : Globals) (c : string) (v : Z) :
  In (c, v) (figure_data (update_bar_chart (Some m) (Some YAll) g)) ->
  sum_Z (map snd
             (filter (fun row => String.eqb (fst (fst row)) c)
                     (figure_data (update_area_chart (Some m) g)))) = v.
Proof.
  intros Hbar.
  assert (Hname :
            In c (map fst (figure_data
                             (update_bar_chart (Some m) (Some YAll) g))))
    by (apply in_map_iff; exists (c, v); auto).
  apply bar_rows_In in Hbar. destruct Hbar as [_ ->].
  set (col := metric_col m).
  set (area := figure_data (update_area_chart (Some m) g)).
  set (rows_c := filter (fun row : string * Z * Z =>
                           String.eqb (fst (fst row)) c) area).
  set (ys := map (fun row : string * Z * Z => snd (fst row)) rows_c).
  assert (Hrow : forall row, In row rows_c ->
            row = (c, snd (fst row),
                   country_year_total col (df g) c (snd (fst row)))).
  { intros [[c0 y] v0] Hin. apply filter_In in Hin. simpl in Hin.
    destruct Hin as [Hin Ec]. apply String.eqb_eq in Ec. subst c0.
    apply area_rows_In in Hin. destruct Hin as (_ & _ & ->). reflexivity. }
  assert (Hvalues : map snd rows_c
                    = map (country_year_total col (df g) c) ys).
  { unfold ys. rewrite map_map. apply map_ext_in. intros row Hin.
    rewrite (Hrow row Hin) at 1. reflexivity. }
  assert (Hkeys : map fst rows_c = map (fun y => (c, y)) ys).
  { unfold ys. rewrite map_map. apply map_ext_in. intros row Hin.
    rewrite (Hrow row Hin) at 1. reflexivity. }
  assert (Hnd : NoDup ys).
  { apply (NoDup_map_inv (fun y => (c, y))). rewrite <- Hkeys.
    unfold rows_c. apply filter_keeps_distinct_keys, area_keys_NoDup. }
  assert (Hcover : forall r,
             In r (filter (fun r => String.eqb (Country_Name r) c) (df g)) ->
             In (Year r) ys).
  { intros r Hr. apply filter_In in Hr. destruct Hr as [Hr Ec].
    apply String.eqb_eq in Ec.
    apply (in_map (fun row : string * Z * Z => snd (fst row)) rows_c
                  (c, Year r, country_year_total col (df g) c (Year r))).
    unfold rows_c. apply filter_In.
    split; [|apply String.eqb_refl].
    apply area_rows_In. split; [exact Hname|].
    split; [|reflexivity]. exists r; auto. }
  rewrite Hvalues.
  rewrite (map_ext _ _ (country_year_total_nested col (df g) c)).
  apply sum_Z_by_key with (k := Year); assumption.
Qed.


(** X13. The first bar is the leader: when the bar chart has rows, the
    first one carries the sum of its country over the selected rows, and
    no country of the selected rows has a larger sum. *)
Theorem bar_first_row_is_maximum (m : Metric) (sel : option YearValue)
        (g : Globals) (c0 : string) (v0 : Z) (rest : list (string * Z)) :
  figure_data (update_bar_chart (Some m) sel g) = (c0, v0) :: rest ->
  let table := selected_rows sel (df g) in
  In c0 (countries table) /\
  v0 = country_total (metric_col m) table c0 /\
  (forall c, In c (countries table) ->
             country_total (metric_col m) table c <= v0).
Proof.
  rewrite bar_rows_eq. intros E table.
  destruct (nlargest_top10 (metric_col m) table)
    as (_ & Hrows & Hsorted & _ & Hdom).
  fold table in E. rewrite E in Hrows, Hsorted, Hdom.
  destruct (Hrows c0 v0 (or_introl eq_refl)) as [Hc0 Hv0].
  split; [exact Hc0|]. split; [exact Hv0|].
  intros c Hc.
  destruct (in_dec string_dec c (map fst ((c0, v0) :: rest))) as [Hin|Hout].
  - apply in_map_iff in Hin. destruct Hin as ([c' v] & Ec & Hin).
    simpl in Ec; subst c'.
    destruct (Hrows c v Hin) as [_ <-].
    destruct Hin as [Hhead|Htail].
    + inversion Hhead. lia.
    + inversion Hsorted as [|? ? _ Hall]; subst.
      rewrite Forall_forall in Hall. apply (Hall (c, v) Htail).
  - rewrite Hv0. apply Hdom; auto. left; reflexivity.
Qed.

(** ** Signs and sizes *)

Lemma sum_Z_filter_bounds (col tot : Row -> Z) (p : Row -> bool)
      (table : list Row) :
  (forall r, In r table -> 0 <= col r <= tot r) ->
  0 <= sum_Z (map col (filter p table)) <= sum_Z (map tot table).
Proof.
  induction table as [|r table IH]; simpl; intros H; [lia|].
  assert (Hr : 0 <= col r <= tot r) by (apply H; left; reflexivity).
  assert (Hrest : 0 <= sum_Z (map col (filter p table))
                  <= sum_Z (map tot table))
    by (apply IH; intros; apply H; right; assumption).
  destruct (p r); simpl; lia.
Qed.

Lemma groupby_sum_bounds K (key_eqb key_le : K -> K -> bool)
      (key : Row -> K) (col tot : Row -> Z) (table : list Row)
      (k : K) (v : Z) :
  (forall r, In r table -> 0 <= col r <= tot r) ->
  In (k, v) (groupby_sum key_eqb key_le key col table) ->
  0 <= v <= sum_Z (map tot table).
Proof.
  intros H Hin. unfold groupby_sum in Hin. apply in_map_iff in Hin.
  destruct Hin as (k' & E & _). inversion E; subst.
  apply sum_Z_filter_bounds, H.
Qed.

Lemma nlargest_In K (n : nat) (s : list (K * Z)) (row : K * Z) :
  In row (nlargest n s) -> In row s.
Proof.
  unfold nlargest. intros H. apply In_firstn in H.
  eapply sort_by_In; eauto.
Qed.

Lemma make_df_bounds (records : list MedalRecord) (m : Metric) (r : Row) :
  (forall rec, In rec records ->
               0 <= rec_Gold rec /\ 0 <= rec_Silver rec /\ 0 <= rec_Bronze rec) ->
  In r (make_df records) -> 0 <= metric_col m r <= Total_Medals r.
Proof.
  intros Hpos Hr. apply make_df_In in Hr. destruct Hr as (rec & Hrec & _ & ->).
  specialize (Hpos rec Hrec). destruct m; simpl; lia.
Qed.

Lemma make_df_grand_total (records : list MedalRecord) :
  (forall rec, In rec records ->
               0 <= rec_Gold rec /\ 0 <= rec_Silver rec /\ 0 <= rec_Bronze rec) ->
  sum_Z (map Total_Medals (make_df records))
  <= sum_Z (map (fun rec => rec_Gold rec + rec_Silver rec + rec_Bronze rec)
                records).
Proof.
  unfold make_df. induction records as [|rec records IH]; simpl; intros Hpos;
    [lia|].
  assert (Hrec : 0 <= rec_Gold rec /\ 0 <= rec_Silver rec /\ 0 <= rec_Bronze rec)
    by (apply Hpos; left; reflexivity).
  assert (Hrest : sum_Z (map Total_Medals
                             (map add_Total_Medals
                                  (filter in_years
                                          (map correct_country_name records))))
                  <= sum_Z (map (fun rec => rec_Gold rec + rec_Silver rec
                                            + rec_Bronze rec) records))
    by (apply IH; intros; apply Hpos; right; assumption).
  rewrite in_years_correct. destruct (in_years rec); simpl; lia.
Qed.

(** X12. When no source line has a negative medal count and the counts
    of all lines together stay below 2^63, so that no sum of the 64-bit
    columns wraps around, every value of every chart is non-negative and
    below 2^63: in the map, in the bar chart for any year selection, in
    the area chart and in the pie chart for any country. *)
Theorem chart_values_nonnegative (columns : list string)
        (records : list MedalRecord) (g : Globals) :
  startup (ReadOk columns records) = Running g ->
  (forall rec, In rec records ->
               0 <= rec_Gold rec /\ 0 <= rec_Silver rec /\ 0 <= rec_Bronze rec) ->
  sum_Z (map (fun rec => rec_Gold rec + rec_Silver rec + rec_Bronze rec)
             records) < 2 ^ 63 ->
  (forall m c v, In (c, v) (figure_data (update_map_chart (Some m) g)) ->
                 0 <= v < 2 ^ 63) /\
  (forall m sel c v,
      In (c, v) (figure_data (update_bar_chart (Some m) sel g)) ->
      0 <= v < 2 ^ 63) /\
  (forall m c y v,
      In (c, y, v) (figure_data (update_area_chart (Some m) g)) ->
      0 <= v < 2 ^ 63) /\
  (forall sel lbl v,
      In (lbl, v) (figure_data (update_pie_chart sel g)) ->
      0 <= v < 2 ^ 63).
Proof.
  intros H Hpos Hsmall. apply startup_running in H.
  destruct H as (columns' & records' & E & _ & Hdf & _).
  inversion E; subst records'.
  assert (Hcol : forall m r, In r (df g) ->
                             0 <= metric_col m r <= Total_Medals r).
  { intros m r. rewrite Hdf. apply make_df_bounds, Hpos. }
  assert (Htotal : sum_Z (map Total_Medals (df g)) < 2 ^ 63).
  { rewrite Hdf. pose proof (make_df_grand_total records Hpos). lia. }
  clear Hdf E Hpos Hsmall.
  split; [|split; [|split]].
  - intros m c v Hin.
    pose proof (groupby_sum_bounds _ _ _ _ Total_Medals _ _ _ (Hcol m) Hin).
    lia.
  - intros m sel c v Hin. rewrite bar_rows_eq in Hin.
    apply nlargest_In in Hin.
    assert (Hsel : forall r, In r (selected_rows sel (df g)) -> In r (df g)).
    { intros r Hr. unfold selected_rows in Hr.
      destruct (is_All sel); [exact Hr|]. apply filter_In in Hr. tauto. }
    assert (Hpart : sum_Z (map Total_Medals (selected_rows sel (df g)))
                    <= sum_Z (map Total_Medals (df g))).
    { unfold selected_rows. destruct (is_All sel); [lia|].
      apply sum_Z_filter_bounds. intros r Hr.
      pose proof (Hcol MTotal_Medals r Hr) as B. simpl in B. lia. }
    assert (B : 0 <= v <= sum_Z (map Total_Medals (selected_rows sel (df g)))).
    { eapply groupby_sum_bounds; [|exact Hin].
      intros r Hr. apply Hcol, Hsel, Hr. }
    lia.
  - intros m c y v Hin. rewrite area_rows_eq in Hin.
    apply filter_In in Hin. destruct Hin as [Hin _].
    pose proof (groupby_sum_bounds _ _ _ _ Total_Medals _ _ _ (Hcol m) Hin).
    lia.
  - intros sel lbl v. unfold figure_data, update_pie_chart.
    destruct (falsy sel); [simpl; tauto|].
    unfold bind, global.
    match goal with |- context [filter ?f (df g)] =>
      pose proof (fun col m (Hc : forall r, col r = metric_col m r) =>
                    sum_Z_filter_bounds col Total_Medals f (df g)
                      (fun r Hr => eq_ind_r (fun z => 0 <= z <= Total_Medals r)
                                            (Hcol m r Hr) (Hc r))) as B;
      destruct (filter f (df g)) as [|r rows]
    end; [simpl; tauto|].
    unfold ret. cbn [fst data In].
    intros [Hin|[Hin|[Hin|[]]]]; apply (f_equal snd) in Hin;
      cbn [snd] in Hin; rewrite <- Hin.
    + pose proof (B Gold MGold (fun r => eq_refl)). lia.
    + pose proof (B Silver MSilver (fun r => eq_refl)). lia.
    + pose proof (B Bronze MBronze (fun r => eq_refl)). lia.
Qed.

(** ** The first render *)

Lemma pie_rows_of_country (g : Globals) (C : string) :
  In C (countries (df g)) ->
  C <> ""%string ->
  figure_data (update_pie_chart (Some C) g)
  = [("Gold"%string, country_total Gold (df g) C);
     ("Silver"%string, country_total Silver (df g) C);
     ("Bronze"%string, country_total Bronze (df g) C)].
Proof.
  intros Hin Hne.
  unfold figure_data, update_pie_chart, falsy.
  apply String.eqb_neq in Hne. rewrite Hne.
  unfold bind, global, country_total.
  pose proof (@rows_of_present_country _ _ Hin) as Hrows.
  destruct (filter (fun r => String.eqb (Country_Name r) C) (df g))
    as [|r rows] eqn:E; [congruence|]. reflexivity.
Qed.

Lemma all_countries_In (table : list Row) (c : string) :
  In c (make_all_countries table) <-> In c (countries table).
Proof.
  unfold make_all_countries. rewrite sort_by_In.
  apply unique_In, String.eqb_eq.
Qed.

(** X14. With the initial value of the country drop-down the pie
    callback draws the three medal sums of the first country of the list
    when the table has rows, and the 'No country selected' placeholder
    when it has none.  (No country name of the table is empty, as
    [read_csv] reads an empty cell as missing.) *)
Theorem initial_pie_chart (src : ReadCsv) (g : Globals) :
  startup src = Running g ->
  (forall r, In r (df g) -> Country_Name r <> ""%string) ->
  (df g = [] ->
   update_pie_chart (country_dropdown_value g) g
   = (Return {| kind := Pie; title := "Please select a country"; data := [];
                annotations := ["No country selected"%string];
                color_discrete_map := []; marker_color := None |}, g)) /\
  (df g <> [] ->
   exists c0 rest,
     all_countries g = c0 :: rest /\
     figure_data (update_pie_chart (country_dropdown_value g) g)
     = [("Gold"%string, country_total Gold (df g) c0);
        ("Silver"%string, country_total Silver (df g) c0);
        ("Bronze"%string, country_total Bronze (df g) c0)]).
Proof.
  intros H Hnames. apply startup_running in H.
  destruct H as (columns & records & _ & _ & _ & Hall & _).
  split.
  - intros Hnil. unfold country_dropdown_value.
    rewrite Hall, Hnil. reflexivity.
  - intros Hne. unfold country_dropdown_value. rewrite Hall.
    destruct (make_all_countries (df g)) as [|c0 rest] eqn:E.
    + exfalso. destruct (df g) as [|r table] eqn:T; [congruence|].
      assert (Hin : In (Country_Name r) (make_all_countries (r :: table)))
        by (apply all_countries_In; left; reflexivity).
      rewrite E in Hin. exact Hin.
    + exists c0, rest. split; [reflexivity|].
      assert (Hc0 : In c0 (countries (df g)))
        by (apply all_countries_In; rewrite E; left; reflexivity).
      apply pie_rows_of_country; [exact Hc0|].
      unfold countries in Hc0. apply in_map_iff in Hc0.
      destruct Hc0 as (r & <- & Hr). apply Hnames, Hr.
Qed.

(** ** Order of the area rows *)

Lemma str_eqb_sym_false (a b : string) :
  String.eqb a b = false -> String.eqb b a = false.
Proof. rewrite String.eqb_sym. auto. Qed.

Lemma key2_le_total (a b : string * Z) :
  key2_le a b = true \/ key2_le b a = true.
Proof.
  unfold key2_le. destruct (String.eqb (fst a) (fst b)) eqn:E.
  - rewrite String.eqb_sym, E. rewrite !Z.leb_le. lia.
  - rewrite (str_eqb_sym_false _ _ E). apply str_le_total.
Qed.

Lemma key2_le_trans (a b c : string * Z) :
  key2_le a b = true -> key2_le b c = true -> key2_le a c = true.
Proof.
  unfold key2_le.
  destruct (String.eqb (fst a) (fst b)) eqn:Eab;
    destruct (String.eqb (fst b) (fst c)) eqn:Ebc;
    try (apply String.eqb_eq in Eab); try (apply String.eqb_eq in Ebc).
  - rewrite Eab, Ebc, String.eqb_refl, !Z.leb_le. lia.
  - rewrite Eab, Ebc. auto.
  - rewrite <- Ebc, Eab. auto.
  - intros Hab Hbc. destruct (String.eqb (fst a) (fst c)) eqn:Eac.
    + apply String.eqb_eq in Eac. rewrite <- Eac in Hbc.
      unfold str_le in *. pose proof (String.leb_antisym _ _ Hab Hbc) as E.
      apply String.eqb_neq in Eab. contradiction.
    + eapply str_le_trans; eauto.
Qed.

Lemma StronglySorted_filter A (R : A -> A -> Prop) (p : A -> bool)
      (l : list A) :
  StronglySorted R l -> StronglySorted R (filter p l).
Proof.
  induction 1 as [|a l Hs IH Hall]; simpl; [constructor|].
  destruct (p a); [|exact IH]. constructor; [exact IH|].
  rewrite Forall_forall in *. intros b Hb. apply filter_In in Hb.
  apply Hall, Hb.
Qed.

(** X15. The rows of the area chart are ordered by country name and,
    within a country, by ascending year. *)
Theorem area_rows_sorted (m : Metric) (g : Globals) :
  StronglySorted
    (fun a b : string * Z =>
       (fst a = fst b /\ snd a <= snd b) \/
       (fst a <> fst b /\ str_le (fst a) (fst b) = true))
    (map fst (figure_data (update_area_chart (Some m) g))).
Proof.
  rewrite area_rows_eq.
  eapply StronglySorted_map with
    (R := fun a b : string * Z * Z => key2_le (fst a) (fst b) = true).
  - intros a b. unfold key2_le.
    destruct (String.eqb (fst (fst a)) (fst (fst b))) eqn:E.
    + apply String.eqb_eq in E. rewrite Z.leb_le. auto.
    + apply String.eqb_neq in E. auto.
  - apply StronglySorted_filter. unfold groupby_sum.
    eapply StronglySorted_map;
      [|apply sort_by_sorted with (le := key2_le);
        [apply key2_le_total | apply key2_le_trans]].
    intros a b H. exact H.
Qed.

(** ** The country list and the renaming *)

(** X16. The country drop-down never offers 'United States'; it offers
    'United States of America' exactly when a source line between 1992
    and 2020 carries one of the two names. *)
Theorem dropdown_never_offers_United_States (columns : list string)
        (records : list MedalRecord) (g : Globals) :
  startup (ReadOk columns records) = Running g ->
  ~ In "United States"%string (all_countries g) /\
  (In "United States of America"%string (all_countries g) <->
   exists rec, In rec records /\
               1992 <= rec_Year rec <= 2020 /\
               (rec_Country_Name rec = "United States"%string \/
                rec_Country_Name rec = "United States of America"%string)).
Proof.
  intros H. apply startup_running in H.
  destruct H as (columns' & records' & E & _ & Hdf & Hall & _).
  inversion E; subst. rewrite Hall, Hdf.
  assert (Hname : forall c,
             In c (make_all_countries (make_df records')) <->
             exists rec, In rec records' /\ in_years rec = true /\
                         c = replace_value "United States"
                                           "United States of America"
                                           (rec_Country_Name rec)).
  { intros c. rewrite all_countries_In. unfold countries.
    rewrite in_map_iff. split.
    - intros (r & <- & Hr). apply make_df_In in Hr.
      destruct Hr as (rec & Hrec & Hy & ->). exists rec. auto.
    - intros (rec & Hrec & Hy & ->).
      exists (add_Total_Medals (correct_country_name rec)).
      split; [reflexivity|]. apply make_df_In. exists rec. auto. }
  assert (Hyears : forall rec, in_years rec = true <->
                               1992 <= rec_Year rec <= 2020).
  { intros rec. unfold in_years. rewrite andb_true_iff, !Z.leb_le. tauto. }
  split.
  - rewrite Hname. intros (rec & _ & _ & Ec). unfold replace_value in Ec.
    destruct (String.eqb (rec_Country_Name rec) "United States") eqn:F.
    + discriminate.
    + apply String.eqb_neq in F. congruence.
  - rewrite Hname. split.
    + intros (rec & Hrec & Hy & Ec). exists rec. split; [exact Hrec|].
      split; [apply Hyears, Hy|]. unfold replace_value in Ec.
      destruct (String.eqb (rec_Country_Name rec) "United States") eqn:F.
      * left. apply String.eqb_eq, F.
      * right. congruence.
    + intros (rec & Hrec & Hy & Ec). exists rec. split; [exact Hrec|].
      split; [apply Hyears, Hy|]. unfold replace_value.
      destruct Ec as [-> | ->]; reflexivity.
Qed.

(** ** Few countries *)

(** X17. When the table has at most ten distinct countries the bar
    chart for 'All' shows every row of the map chart of the same medal
    type, rearranged. *)
Theorem bar_shows_all_when_few (m : Metric) (g : Globals) :
  (List.length (unique String.eqb (countries (df g))) <= 10)%nat ->
  Permutation (figure_data (update_bar_chart (Some m) (Some YAll) g))
              (figure_data (update_map_chart (Some m) g)).
Proof.
  intros Hfew. rewrite bar_rows_eq.
  change (selected_rows (Some YAll) (df g)) with (df g).
  unfold figure_data. simpl. unfold nlargest.
  rewrite firstn_all2.
  - apply sort_by_perm.
  - rewrite sort_by_length, groupby_length. exact Hfew.
Qed.

(** ** Names and years that loading removes *)

Lemma pie_of_absent_country (g : Globals) (c : string) :
  c <> ""%string ->
  ~ In c (countries (df g)) ->
  update_pie_chart (Some c) g
  = (Return {| kind := Pie;
               title := ("No data for " ++ c ++ " (1992-2020)")%string;
               data := [];
               annotations := ["No data available"%string];
               color_discrete_map := []; marker_color := None |}, g).
Proof.
  intros Hne Hout. unfold update_pie_chart, falsy.
  apply String.eqb_neq in Hne. rewrite Hne. unfold bind, global.
  destruct (filter (fun r => String.eqb (Country_Name r) c) (df g))
    as [|r rows] eqn:F; [reflexivity|].
  exfalso. apply Hout.
  assert (H : In r (filter (fun r => String.eqb (Country_Name r) c) (df g)))
    by (rewrite F; left; reflexivity).
  apply filter_In in H. destruct H as [Hr Hc]. apply String.eqb_eq in Hc.
  unfold countries. apply in_map_iff. exists r; auto.
Qed.

Lemma make_df_not_United_States (records : list MedalRecord) :
  ~ In "United States"%string (countries (make_df records)).
Proof.
  unfold countries. rewrite in_map_iff. intros (r & Ec & Hr).
  apply make_df_In in Hr. destruct Hr as (rec & _ & _ & ->).
  simpl in Ec. unfold replace_value in Ec.
  destruct (String.eqb (rec_Country_Name rec) "United States") eqn:F.
  - discriminate.
  - apply String.eqb_neq in F. contradiction.
Qed.

(** X18. After loading, the pie callback answers the name 'United
    States' with the 'No data available' placeholder, whatever the source
    holds under that name: its rows are under 'United States of
    America'. *)
Theorem pie_of_United_States (src : ReadCsv) (g : Globals) :
  startup src = Running g ->
  update_pie_chart (Some "United States"%string) g
  = (Return {| kind := Pie;
               title := "No data for United States (1992-2020)";
               data := [];
               annotations := ["No data available"%string];
               color_discrete_map := []; marker_color := None |}, g).
Proof.
  intros H. apply startup_running in H.
  destruct H as (columns & records & _ & _ & Hdf & _).
  apply pie_of_absent_country; [discriminate|].
  rewrite Hdf. apply make_df_not_United_States.
Qed.

Lemma bar_year_rows_nil (m : Metric) (g : Globals) (y : Z) :
  figure_data (update_bar_chart (Some m) (Some (YInt y)) g) = []
  <-> ~ In y (map Year (df g)).
Proof. rewrite bar_rows_eq, <- filter_year_nil. apply top10_nil. Qed.

(** X19. A year before 1992 or after 2020 is never offered by the year
    drop-down, and the bar chart for it has no bar, even if the source
    has lines of that year. *)
Theorem bar_of_year_out_of_range (src : ReadCsv) (g : Globals) (m : Metric)
        (y : Z) :
  startup src = Running g ->
  y < 1992 \/ 2020 < y ->
  ~ In (YInt y) (map value (year_options g)) /\
  figure_data (update_bar_chart (Some m) (Some (YInt y)) g) = [].
Proof.
  intros H Hy. apply startup_running in H.
  destruct H as (columns & records & _ & _ & Hdf & _ & _ & Hopts & _).
  assert (Hout : ~ In y (map Year (df g))).
  { rewrite Hdf, in_map_iff. intros (r & Ey & Hr).
    apply make_df_years in Hr. lia. }
  split.
  - rewrite Hopts. simpl. intros [Habs|Hin]; [discriminate|].
    rewrite map_map in Hin. apply in_map_iff in Hin.
    destruct Hin as (t & Ev & Ht). apply year_host_info_In in Ht.
    destruct Ht as (r & Hr & ->). simpl in Ev. inversion Ev.
    apply Hout. subst y. apply in_map, Hr.
  - apply bar_year_rows_nil. exact Hout.
Qed.

(** X20. Every option of the drop-downs is answered with data: the bar
    chart of an offered year has at least one bar, and the pie chart of
    an offered country has its three rows.  (No country name of the
    table is empty.) *)
Theorem offered_options_have_data (src : ReadCsv) (g : Globals) :
  startup src = Running g ->
  (forall r, In r (df g) -> Country_Name r <> ""%string) ->
  (forall m y, In (YInt y) (map value (year_options g)) ->
               figure_data (update_bar_chart (Some m) (Some (YInt y)) g)
               <> []) /\
  (forall c, In c (all_countries g) ->
             List.length (figure_data (update_pie_chart (Some c) g)) = 3%nat).
Proof.
  intros H Hnames. apply startup_running in H.
  destruct H as (columns & records & _ & _ & _ & Hall & _ & Hopts & _).
  split.
  - intros m y Hin Hnil. apply bar_year_rows_nil in Hnil. apply Hnil.
    rewrite Hopts in Hin. simpl in Hin. destruct Hin as [Habs|Hin];
      [discriminate|].
    rewrite map_map in Hin. apply in_map_iff in Hin.
    destruct Hin as (t & Ev & Ht). apply year_host_info_In in Ht.
    destruct Ht as (r & Hr & ->). simpl in Ev. inversion Ev.
    apply in_map, Hr.
  - intros c Hc. rewrite Hall in Hc. apply all_countries_In in Hc.
    rewrite pie_rows_of_country; [reflexivity|exact Hc|].
    unfold countries in Hc. apply in_map_iff in Hc.
    destruct Hc as (r & <- & Hr). apply Hnames, Hr.
Qed.

(* ================================================================== *)
(** ** The further properties at the small table *)

Lemma sample_names_nonempty :
  forall r, In r (df sample_globals) -> Country_Name r <> ""%string.
Proof.
  intros r Hin. simpl in Hin.
  repeat (destruct Hin as [<-|Hin]; [discriminate|]). contradiction.
Defined.

Lemma sample_counts_nonnegative :
  forall rec, In rec sample_records ->
              0 <= rec_Gold rec /\ 0 <= rec_Silver rec /\ 0 <= rec_Bronze rec.
Proof.
  intros rec Hin. unfold sample_records in Hin. simpl in Hin.
  repeat (destruct Hin as [<-|Hin]; [simpl; lia|]). contradiction.
Defined.

Lemma sample_dtype : medal_dtype (df_frame sample_globals) = int64.
Proof. reflexivity. Defined.

Lemma sample_counts_small :
  sum_Z (map (fun rec => rec_Gold rec + rec_Silver rec + rec_Bronze rec)
             sample_records) < 2 ^ 63.
Proof. vm_compute. reflexivity. Defined.

Lemma startup_runs_only_with_columns_witness :
  startup sample_read = Running sample_globals /\
  exists columns records,
    sample_read = ReadOk columns records /\
    (forall c, In c expected_cols_from_user -> In c columns) /\
    df sample_globals = make_df records /\
    (medal_dtype (df_frame sample_globals) = object <-> records = []) /\
    all_countries sample_globals = make_all_countries (df sample_globals) /\
    medal_types sample_globals
      = ["Gold"; "Silver"; "Bronze"; "Total_Medals"]%string /\
    year_options sample_globals = make_year_options (df sample_globals).
Proof.
  assert (H : startup sample_read = Running sample_globals) by reflexivity.
  exact (conj H (@startup_runs_only_with_columns sample_read sample_globals
                                                 H)).
Defined.

Lemma year_options_cover_years_witness :
  startup sample_read = Running sample_globals /\
  exists hosts : list (Z * string * string),
    year_options sample_globals
      = {| label := "All Years (1992-2020)"; value := YAll |}
          :: map (fun t =>
                    {| label := (str_of_int (fst (fst t)) ++ " - "
                                   ++ snd (fst t) ++ ", " ++ snd t)%string;
                       value := YInt (fst (fst t)) |}) hosts /\
    NoDup hosts /\
    (forall y city country,
        In (y, city, country) hosts <->
        exists r, In r (df sample_globals) /\ Year r = y /\
                  Host_city r = city /\ Host_country r = country) /\
    StronglySorted Z.le (map (fun t => fst (fst t)) hosts) /\
    Forall (fun t => 1992 <= fst (fst t) <= 2020) hosts.
Proof.
  assert (H : startup sample_read = Running sample_globals) by reflexivity.
  exact (conj H (@year_options_cover_years sample_read sample_globals H)).
Defined.

Lemma area_top10_countries_witness :
  medal_dtype (df_frame sample_globals) = int64 /\
  exists fig,
    update_area_chart (Some MGold) sample_globals
      = (Return fig, sample_globals) /\
    List.length (area_countries (data fig)) = 10%nat.
Proof.
  destruct (@area_top10_countries MGold sample_globals sample_dtype)
    as (fig & Efig & Hlen & _).
  exact (conj sample_dtype (ex_intro _ fig (conj Efig Hlen))).
Defined.

Lemma bar_top10_rows_witness :
  medal_dtype (df_frame sample_globals) = int64 /\
  exists fig,
    update_bar_chart (Some MSilver) (Some YAll) sample_globals
      = (Return fig, sample_globals) /\
    (List.length (data fig) <= 10)%nat /\
    top10_of Silver (df sample_globals) (data fig).
Proof.
  exact (conj sample_dtype
              (proj1 (@bar_top10_rows MSilver sample_globals sample_dtype))).
Defined.

Lemma bar_title_for_year_witness :
  startup sample_read = Running sample_globals /\
  medal_dtype (df_frame sample_globals) = int64 /\
  figure_title (update_bar_chart (Some MTotal_Medals) (Some YAll)
                                 sample_globals)
  = Some "Top 10 Countries by Total Medals in All Years (1992-2020)"%string.
Proof.
  assert (H : startup sample_read = Running sample_globals) by reflexivity.
  exact (conj H (conj sample_dtype
           (proj1 (@bar_title_for_year sample_read sample_globals
                                       MTotal_Medals H sample_dtype)))).
Defined.

Lemma map_rows_follow_dropdown_witness :
  startup sample_read = Running sample_globals /\
  map fst (figure_data (update_map_chart (Some MSilver) sample_globals))
  = all_countries sample_globals.
Proof.
  assert (H : startup sample_read = Running sample_globals) by reflexivity.
  exact (conj H (@map_rows_follow_dropdown sample_read sample_globals
                                           MSilver H)).
Defined.

Lemma map_total_is_sum_of_medals_witness :
  startup sample_read = Running sample_globals /\
  In ("China"%string, 158)
     (figure_data (update_map_chart (Some MTotal_Medals) sample_globals)) /\
  exists gold silver bronze,
    In ("China"%string, gold)
       (figure_data (update_map_chart (Some MGold) sample_globals)) /\
    In ("China"%string, silver)
       (figure_data (update_map_chart (Some MSilver) sample_globals)) /\
    In ("China"%string, bronze)
       (figure_data (update_map_chart (Some MBronze) sample_globals)) /\
    158 = gold + silver + bronze.
Proof.
  assert (H : startup sample_read = Running sample_globals) by reflexivity.
  assert (Hin : In ("China"%string, 158)
                   (figure_data (update_map_chart (Some MTotal_Medals)
                                                  sample_globals)))
    by (vm_compute; auto 20).
  exact (conj H (conj Hin
           (@map_total_is_sum_of_medals sample_read sample_globals
                                        "China" 158 H Hin))).
Defined.

Lemma pie_values_match_map_witness :
  startup sample_read = Running sample_globals /\
  In "Japan"%string (countries (df sample_globals)) /\
  "Japan"%string <> ""%string /\
  exists gold silver bronze,
    figure_data (update_pie_chart (Some "Japan"%string) sample_globals)
      = [("Gold"%string, gold); ("Silver"%string, silver);
         ("Bronze"%string, bronze)] /\
    In ("Japan"%string, gold)
       (figure_data (update_map_chart (Some MGold) sample_globals)) /\
    In ("Japan"%string, silver)
       (figure_data (update_map_chart (Some MSilver) sample_globals)) /\
    In ("Japan"%string, bronze)
       (figure_data (update_map_chart (Some MBronze) sample_globals)) /\
    In ("Japan"%string, gold + silver + bronze)
       (figure_data (update_map_chart (Some MTotal_Medals) sample_globals)).
Proof.
  assert (H : startup sample_read = Running sample_globals) by reflexivity.
  assert (Hin : In "Japan"%string (countries (df sample_globals)))
    by (simpl; auto 20).
  assert (Hne : "Japan"%string <> ""%string) by discriminate.
  exact (conj H (conj Hin (conj Hne
           (@pie_values_match_map sample_read sample_globals "Japan"
                                  H Hin Hne)))).
Defined.

Lemma area_years_add_up_witness :
  In ("China"%string, 64)
     (figure_data (update_bar_chart (Some MGold) (Some YAll)
                                    sample_globals)) /\
  sum_Z (map snd
             (filter (fun row => String.eqb (fst (fst row)) "China")
                     (figure_data (update_area_chart (Some MGold)
                                                     sample_globals)))) = 64.
Proof.
  assert (Hin : In ("China"%string, 64)
                   (figure_data (update_bar_chart (Some MGold) (Some YAll)
                                                  sample_globals)))
    by (vm_compute; auto 20).
  exact (conj Hin (@area_years_add_up MGold sample_globals "China" 64 Hin)).
Defined.

Lemma chart_values_nonnegative_witness :
  startup sample_read = Running sample_globals /\
  (forall m c v,
      In (c, v) (figure_data (update_map_chart (Some m) sample_globals)) ->
      0 <= v < 2 ^ 63).
Proof.
  assert (H : startup (ReadOk (expected_cols_from_user ++ ["Notes"%string])
                              sample_records) = Running sample_globals)
    by reflexivity.
  exact (conj H
           (proj1 (@chart_values_nonnegative
                     (expected_cols_from_user ++ ["Notes"%string])
                     sample_records sample_globals H
                     sample_counts_nonnegative sample_counts_small))).
Defined.

Lemma bar_first_row_is_maximum_witness :
  figure_data (update_bar_chart (Some MGold) (Some (YInt 2016)) sample_globals)
  = [("United States of America"%string, 46); ("China"%string, 26);
     ("Japan"%string, 12)] /\
  (forall c,
      In c (countries (selected_rows (Some (YInt 2016)) (df sample_globals))) ->
      country_total Gold (selected_rows (Some (YInt 2016)) (df sample_globals))
                    c <= 46).
Proof.
  assert (H : figure_data (update_bar_chart (Some MGold) (Some (YInt 2016))
                                            sample_globals)
              = [("United States of America"%string, 46);
                 ("China"%string, 26); ("Japan"%string, 12)])
    by (vm_compute; reflexivity).
  exact (conj H
           (proj2 (proj2
              (@bar_first_row_is_maximum
                 MGold (Some (YInt 2016)) sample_globals
                 "United States of America" 46
                 [("China"%string, 26); ("Japan"%string, 12)] H)))).
Defined.

Lemma initial_pie_chart_witness :
  startup sample_read = Running sample_globals /\
  (df sample_globals <> [] ->
   exists c0 rest,
     all_countries sample_globals = c0 :: rest /\
     figure_data (update_pie_chart (country_dropdown_value sample_globals)
                                   sample_globals)
     = [("Gold"%string, country_total Gold (df sample_globals) c0);
        ("Silver"%string, country_total Silver (df sample_globals) c0);
        ("Bronze"%string, country_total Bronze (df sample_globals) c0)]).
Proof.
  assert (H : startup sample_read = Running sample_globals) by reflexivity.
  exact (conj H
           (proj2 (@initial_pie_chart sample_read sample_globals H
                                      sample_names_nonempty))).
Defined.

Lemma dropdown_never_offers_United_States_witness :
  startup sample_read = Running sample_globals /\
  ~ In "United States"%string (all_countries sample_globals).
Proof.
  assert (H : startup (ReadOk (expected_cols_from_user ++ ["Notes"%string])
                              sample_records) = Running sample_globals)
    by reflexivity.
  exact (conj H
           (proj1 (@dropdown_never_offers_United_States
                     (expected_cols_from_user ++ ["Notes"%string])
                     sample_records sample_globals H))).
Defined.

Lemma bar_shows_all_when_few_witness :
  let g := with_df sample_globals
                   (filter (fun r => Year r =? 2016) (df sample_globals)) in
  (List.length (unique String.eqb (countries (df g))) <= 10)%nat /\
  Permutation (figure_data (update_bar_chart (Some MBronze) (Some YAll) g))
              (figure_data (update_map_chart (Some MBronze) g)).
Proof.
  intros g.
  assert (H : (List.length (unique String.eqb (countries (df g))) <= 10)%nat)
    by (vm_compute; lia).
  exact (conj H (@bar_shows_all_when_few MBronze g H)).
Defined.

Lemma pie_of_United_States_witness :
  startup sample_read = Running sample_globals /\
  update_pie_chart (Some "United States"%string) sample_globals
  = (Return {| kind := Pie;
               title := "No data for United States (1992-2020)";
               data := [];
               annotations := ["No data available"%string];
               color_discrete_map := []; marker_color := None |},
     sample_globals).
Proof.
  assert (H : startup sample_read = Running sample_globals) by reflexivity.
  exact (conj H (@pie_of_United_States sample_read sample_globals H)).
Defined.

Lemma bar_of_year_out_of_range_witness :
  startup sample_read = Running sample_globals /\
  (2024 < 1992 \/ 2020 < 2024) /\
  ~ In (YInt 2024) (map value (year_options sample_globals)) /\
  figure_data (update_bar_chart (Some MGold) (Some (YInt 2024))
                                sample_globals) = [].
Proof.
  assert (H : startup sample_read = Running sample_globals) by reflexivity.
  assert (Hy : 2024 < 1992 \/ 2020 < 2024) by lia.
  exact (conj H (conj Hy
           (@bar_of_year_out_of_range sample_read sample_globals MGold 2024
                                      H Hy))).
Defined.

Lemma offered_options_have_data_witness :
  startup sample_read = Running sample_globals /\
  (forall m y, In (YInt y) (map value (year_options sample_globals)) ->
               figure_data (update_bar_chart (Some m) (Some (YInt y))
                                             sample_globals) <> []) /\
  (forall c, In c (all_countries sample_globals) ->
             List.length (figure_data (update_pie_chart (Some c)
                                                        sample_globals))
             = 3%nat).
Proof.
  assert (H : startup sample_read = Running sample_globals) by reflexivity.
  exact (conj H (@offered_options_have_data sample_read sample_globals H
                                            sample_names_nonempty)).
Defined.
